(** * Chapter05.jsx: clipboard writer, Pyodide loader and code runner

    A shallow embedding of the three pieces of systems logic found in
    [src/Chapter05.jsx]:

    - [safeCopyText]       (lines 21-65),
    - [loadPyodideOnce]    (lines 70-101),
    - [usePyRunner] with [ensureReady] and [run] (lines 106-222),

    together with the statements that relate them to the written
    specification.

    JavaScript strings are sequences of UTF-16 code units; they are modelled
    as [list N].  Promises are modelled explicitly: an [await] is a point at
    which the host delivers a reply. *)

From Stdlib Require Import NArith ZArith String Ascii Lia Bool.
From stdpp Require Import base list gmap.

Local Open Scope N_scope.
Local Open Scope nat_scope.

(* ===================================================================== *)
(** ** JavaScript strings and values *)
(* ===================================================================== *)

Module Js.

(** A JavaScript string: its UTF-16 code units. *)
Definition jsstring := list N.

(** Literals of the source, all of them ASCII. *)
Definition u16 (s : string) : jsstring :=
  map N_of_ascii (list_ascii_of_string s).

(** The line feed, the only separator of [split(/\n/)]. *)
Definition LF : N := 10%N.

(** [String.prototype.startsWith(pat)] at position 0. *)
Fixpoint startsWith (s pat : jsstring) : bool :=
  match pat, s with
  | [], _ => true
  | p :: pat', c :: s' => N.eqb c p && startsWith s' pat'
  | _ :: _, [] => false
  end.

(** [String.prototype.replace(pat, rep)] with a string pattern: only the
    first occurrence of [pat] is replaced (the replacement [rep] is taken
    literally; the source only ever passes the empty string). *)
Fixpoint replace (s pat rep : jsstring) : jsstring :=
  if startsWith s pat then rep ++ drop (length pat) s
  else match s with
       | [] => []
       | c :: s' => c :: replace s' pat rep
       end.

(** [String.prototype.split(/\n/)]: the pieces between line feeds; the empty
    string splits into one empty piece. *)
Fixpoint split_nl (s : jsstring) : list jsstring :=
  match s with
  | [] => [[]]
  | c :: s' =>
      if N.eqb c LF then [] :: split_nl s'
      else match split_nl s' with
           | l :: ls => (c :: l) :: ls
           | [] => [[c]]
           end
  end.

(** The code units [String.prototype.trim] removes: ECMAScript WhiteSpace
    and LineTerminator (TAB, LF, VT, FF, CR, SP, NBSP, the Zs category, LS,
    PS and the byte order mark). *)
Definition white_space : list N :=
  [ 0x9; 0xA; 0xB; 0xC; 0xD; 0x20; 0xA0; 0x1680;
    0x2000; 0x2001; 0x2002; 0x2003; 0x2004; 0x2005; 0x2006; 0x2007;
    0x2008; 0x2009; 0x200A; 0x2028; 0x2029; 0x202F; 0x205F; 0x3000;
    0xFEFF ]%N.

Definition is_white_space (c : N) : bool :=
  existsb (N.eqb c) white_space.

Fixpoint trimStart (s : jsstring) : jsstring :=
  match s with
  | [] => []
  | c :: s' => if is_white_space c then trimStart s' else s
  end.

Definition trimEnd (s : jsstring) : jsstring := rev (trimStart (rev s)).

(** [String.prototype.trim]. *)
Definition trim (s : jsstring) : jsstring := trimEnd (trimStart s).

(** Truthiness of a number used as a condition ([if (n)]): non-zero. *)
Definition truthy_length (n : nat) : bool := negb (Nat.eqb n 0).

(** The values that are thrown, rejected with, or handed to [String(...)]
    in this file: [undefined], [null], a primitive string, an [Error]
    object with its [name] and [message], or some other object without a
    [message] (the [Event] a failed script load rejects with), given by
    what [String] makes of it. *)
Inductive value :=
| VUndefined
| VNull
| VString (s : jsstring)
| VError (name message : jsstring)
| VObject (shown : jsstring).

(** [Error.prototype.toString]: the name, the message, or both joined by
    a colon and a space. *)
Definition error_toString (name message : jsstring) : jsstring :=
  match name, message with
  | [], _ => message
  | _, [] => name
  | _, _ => name ++ u16 ": " ++ message
  end.

(** [String(v)]. *)
Definition String_ (v : value) : jsstring :=
  match v with
  | VUndefined => u16 "undefined"
  | VNull => u16 "null"
  | VString s => s
  | VError n m => error_toString n m
  | VObject shown => shown
  end.

(** [e?.message]: the message of an error object; [undefined] on
    [null], [undefined], on a primitive string and on an object without
    that property. *)
Definition optional_message (e : value) : value :=
  match e with
  | VError _ m => VString m
  | _ => VUndefined
  end.

(** Truthiness of a value. *)
Definition truthy (v : value) : bool :=
  match v with
  | VUndefined | VNull => false
  | VString s => truthy_length (length s)
  | VError _ _ | VObject _ => true
  end.

(** [a || b]. *)
Definition or_else (a b : value) : value := if truthy a then a else b.

(** [String(e?.message || e)], the text both [ensureReady] and [run] keep
    of an exception. *)
Definition message_of (e : value) : jsstring :=
  String_ (or_else (optional_message e) e).

End Js.

(* ===================================================================== *)
(** ** The output parser (the loop of [run], lines 201-210) *)
(* ===================================================================== *)

Module Parser.
Import Js.

(** The marker [print('__IMG__' + b64)] puts in front of an image. *)
Definition sentinel : jsstring := u16 "__IMG__".

(** The template literal [`data:image/png;base64,${b64}`]. *)
Definition data_url (b64 : jsstring) : jsstring :=
  u16 "data:image/png;base64," ++ b64.

(** The two accumulators of the loop, [images] and [text]. *)
Record output := { images : list jsstring; text : jsstring }.

(** One iteration of [for (const line of lines)]. *)
Definition parse_line (acc : output) (line : jsstring) : output :=
  if startsWith line sentinel then
    let b64 := replace line sentinel [] in
    {| images := images acc ++ [data_url b64]; text := text acc |}
  else if truthy_length (length (trim line)) then
    {| images := images acc; text := text acc ++ line ++ [LF] |}
  else acc.

Definition parse_lines (lines : list jsstring) : output :=
  fold_left parse_line lines {| images := []; text := [] |}.

(** [String(out).split(/\n/)] followed by the loop. *)
Definition parse_output (out : jsstring) : output :=
  parse_lines (split_nl out).

(** The base64 payload carried by an image artifact: what follows the
    [data:image/png;base64,] header of its data URL. *)
Definition payload (img : jsstring) : jsstring :=
  drop (length (u16 "data:image/png;base64,")) img.

Definition is_image_line (l : jsstring) : bool := startsWith l sentinel.
Definition is_blank (l : jsstring) : bool := forallb is_white_space l.

(** What one line adds to [text]. *)
Definition line_text (l : jsstring) : jsstring :=
  if is_image_line l then []
  else if is_blank l then []
  else l ++ [LF].

(** What one line adds to [images]. *)
Definition line_images (l : jsstring) : list jsstring :=
  if is_image_line l then [data_url (drop (length sentinel) l)] else [].

(** The lines [run] keeps for [text]: those that do not begin with the
    sentinel and whose [trim()] is not empty. *)
Definition is_text_line (l : jsstring) : bool :=
  negb (startsWith l sentinel) && truthy_length (length (trim l)).

End Parser.

(* ===================================================================== *)
(** ** The clipboard writer ([safeCopyText], lines 21-65) *)
(* ===================================================================== *)

Module Clipboard.
Import Js.

(** The host calls of [safeCopyText], one name per place of the source, in
    the order of the source. *)
Inductive call :=
| writeText             (* navigator.clipboard.writeText(text), line 25 *)
| createTextarea        (* document.createElement("textarea"), line 33 *)
| appendTextarea        (* document.body.appendChild(ta), line 40 *)
| selectTextarea        (* ta.select(), line 41 *)
| setSelectionRange     (* ta.setSelectionRange(0, ...), line 42 *)
| execCommandTextarea   (* document.execCommand("copy"), line 43 *)
| removeTextarea        (* document.body.removeChild(ta), line 44 *)
| getSelection          (* window.getSelection(), line 51 *)
| createRange           (* document.createRange(), line 52 *)
| createSpan            (* document.createElement("span"), line 53 *)
| appendSpan            (* document.body.appendChild(tmp), line 55 *)
| selectNodeContents    (* range.selectNodeContents(tmp), line 56 *)
| removeAllRanges1      (* sel.removeAllRanges(), line 57 *)
| addRange              (* sel.addRange(range), line 58 *)
| execCommandSelection  (* document.execCommand("copy"), line 59 *)
| removeAllRanges2      (* sel.removeAllRanges(), line 60 *)
| removeSpan.           (* document.body.removeChild(tmp), line 61 *)

(** What the page is hosted in.  A browser page: [window] and [document]
    are the page's own; every call into the host may still throw (a
    sandboxed frame, a permissions policy, a missing method), and
    [navigator.clipboard.writeText] may reject. *)
Record host := {
  navigator_defined : bool;      (* typeof navigator !== "undefined" *)
  navigator_clipboard : bool;    (* navigator.clipboard is truthy *)
  isSecureContext : bool;        (* window.isSecureContext *)
  throws : call -> bool;         (* the call at that place throws or rejects *)
  has_execCommand : bool;        (* document.execCommand is truthy *)
  execCommand_returns : call -> bool  (* what document.execCommand("copy") returns there *)
}.

Inductive tag := TEXTAREA | SPAN.

(** An element made by [document.createElement], with the text put in it
    ([ta.value] or [tmp.textContent]). *)
Record element := { el_id : nat; el_tag : tag; el_text : jsstring }.

(** The part of the page [safeCopyText] touches: the children of
    [document.body], the ranges of the page's selection (by the element
    they select), and the calls made so far, the latest first. *)
Record page := {
  next_id : nat;
  body : list element;
  ranges : list nat;
  calls : list call
}.

(** [{ ok, method }]. *)
Record outcome := { ok : bool; method : jsstring }.

(** A computation on the page that returns or throws ([None]). *)
Definition M (A : Type) : Type := page -> option A * page.

Definition ret {A} (a : A) : M A := fun p => (Some a, p).

Definition bind {A B} (m : M A) (k : A -> M B) : M B :=
  fun p => match m p with
           | (Some a, p') => k a p'
           | (None, p') => (None, p')
           end.

(** [try { m } catch { handler }]. *)
Definition try_catch {A} (m handler : M A) : M A :=
  fun p => match m p with
           | (Some a, p') => (Some a, p')
           | (None, p') => handler p'
           end.

Notation "x <- m ;; k" := (bind m (fun x => k))
  (at level 90, m at level 80, right associativity).
Notation "m ;;; k" := (bind m (fun _ => k))
  (at level 90, right associativity).

Definition log (c : call) (p : page) : page :=
  {| next_id := next_id p; body := body p; ranges := ranges p;
     calls := c :: calls p |}.

(** The calls in the order they were made. *)
Definition trace (p : page) : list call := rev (calls p).

(** A call into the host: it is recorded; when the host throws there, the
    page is left as it was. *)
Definition host_call {A} (h : host) (c : call) (effect : page -> A * page) : M A :=
  fun p =>
    if throws h c then (None, log c p)
    else let (a, p') := effect (log c p) in (Some a, p').

Definition create (t : tag) (txt : jsstring) (p : page) : element * page :=
  ({| el_id := next_id p; el_tag := t; el_text := txt |},
   {| next_id := S (next_id p); body := body p; ranges := ranges p;
      calls := calls p |}).

Definition appendChild (e : element) (p : page) : unit * page :=
  (tt, {| next_id := next_id p; body := body p ++ [e]; ranges := ranges p;
          calls := calls p |}).

Definition removeChild (e : element) (p : page) : unit * page :=
  (tt, {| next_id := next_id p;
          body := List.filter (fun x => negb (Nat.eqb (el_id x) (el_id e))) (body p);
          ranges := ranges p; calls := calls p |}).

Definition set_ranges (rs : list nat) (p : page) : unit * page :=
  (tt, {| next_id := next_id p; body := body p; ranges := rs;
          calls := calls p |}).

Definition no_effect {A} (a : A) (p : page) : A * page := (a, p).

(** [document.execCommand && document.execCommand("copy")]. *)
Definition execCommand_copy (h : host) (c : call) : M bool :=
  if has_execCommand h then host_call h c (no_effect (execCommand_returns h c))
  else ret false.

(** Lines 23-30.  [Some o]: the function returns [o]; [None]: control goes
    on below the block. *)
Definition primary (h : host) (text : jsstring) : M (option outcome) :=
  if navigator_defined h && navigator_clipboard h && isSecureContext h then
    try_catch
      (host_call h writeText (no_effect tt) ;;;
       ret (Some {| ok := true; method := u16 "navigator.clipboard" |}))
      (ret None)
  else ret None.

(** Lines 32-48. *)
Definition legacy (h : host) (text : jsstring) : M (option outcome) :=
  try_catch
    (ta <- host_call h createTextarea (create TEXTAREA text) ;;
     host_call h appendTextarea (appendChild ta) ;;;
     host_call h selectTextarea (no_effect tt) ;;;
     host_call h setSelectionRange (no_effect tt) ;;;
     ok <- execCommand_copy h execCommandTextarea ;;
     host_call h removeTextarea (removeChild ta) ;;;
     if ok then ret (Some {| ok := true; method := u16 "execCommand" |})
     else ret None)
    (ret None).

(** Lines 50-63. *)
Definition manual (h : host) (text : jsstring) : M (option outcome) :=
  try_catch
    (host_call h getSelection (no_effect tt) ;;;
     host_call h createRange (no_effect tt) ;;;
     tmp <- host_call h createSpan (create SPAN text) ;;
     host_call h appendSpan (appendChild tmp) ;;;
     host_call h selectNodeContents (no_effect tt) ;;;
     host_call h removeAllRanges1 (set_ranges []) ;;;
     host_call h addRange (set_ranges [el_id tmp]) ;;;
     ok <- execCommand_copy h execCommandSelection ;;
     host_call h removeAllRanges2 (set_ranges []) ;;;
     host_call h removeSpan (removeChild tmp) ;;;
     if ok then ret (Some {| ok := true; method := u16 "selection" |})
     else ret None)
    (ret None).

(** [safeCopyText(text)]: the three blocks in a row, then line 64. *)
Definition safeCopyText (h : host) (text : jsstring) : M outcome :=
  r1 <- primary h text ;;
  match r1 with
  | Some o => ret o
  | None =>
      r2 <- legacy h text ;;
      match r2 with
      | Some o => ret o
      | None =>
          r3 <- manual h text ;;
          match r3 with
          | Some o => ret o
          | None => ret {| ok := false; method := u16 "blocked" |}
          end
      end
  end.

(** The strategy a host call belongs to. *)
Inductive strategy := Primary | Legacy | Manual.

#[global] Instance strategy_eq_dec : EqDecision strategy.
Proof. solve_decision. Defined.

Definition strategy_of (c : call) : strategy :=
  match c with
  | writeText => Primary
  | createTextarea | appendTextarea | selectTextarea | setSelectionRange
  | execCommandTextarea | removeTextarea => Legacy
  | getSelection | createRange | createSpan | appendSpan
  | selectNodeContents | removeAllRanges1 | addRange
  | execCommandSelection | removeAllRanges2 | removeSpan => Manual
  end.

(** The strategies a trace goes through: the strategy of each call, runs
    of the same strategy taken once. *)
Fixpoint attempted (cs : list call) : list strategy :=
  match cs with
  | [] => []
  | c :: cs' =>
      match attempted cs' with
      | s :: ss => if decide (strategy_of c = s) then s :: ss
                   else strategy_of c :: s :: ss
      | [] => [strategy_of c]
      end
  end.

(** The primary API is usable: the condition of line 23. *)
Definition primary_available (h : host) : bool :=
  navigator_defined h && navigator_clipboard h && isSecureContext h.

Definition primary_succeeds (h : host) : bool :=
  primary_available h && negb (throws h writeText).

(** [document.execCommand("copy")] at place [c] is there, does not throw
    and returns a truthy value. *)
Definition execCommand_ok (h : host) (c : call) : bool :=
  has_execCommand h && negb (throws h c) && execCommand_returns h c.

Definition legacy_succeeds (h : host) : bool :=
  negb (throws h createTextarea) && negb (throws h appendTextarea)
  && negb (throws h selectTextarea) && negb (throws h setSelectionRange)
  && execCommand_ok h execCommandTextarea && negb (throws h removeTextarea).

Definition manual_succeeds (h : host) : bool :=
  negb (throws h getSelection) && negb (throws h createRange)
  && negb (throws h createSpan) && negb (throws h appendSpan)
  && negb (throws h selectNodeContents) && negb (throws h removeAllRanges1)
  && negb (throws h addRange) && execCommand_ok h execCommandSelection
  && negb (throws h removeAllRanges2) && negb (throws h removeSpan).

(** The names the specification gives to the four values of [method]. *)
Inductive methodUsed := primary_api | legacy_command | manual_selection | none.

Definition spec_method (o : outcome) : option methodUsed :=
  if decide (method o = u16 "navigator.clipboard") then Some primary_api
  else if decide (method o = u16 "execCommand") then Some legacy_command
  else if decide (method o = u16 "selection") then Some manual_selection
  else if decide (method o = u16 "blocked") then Some none
  else None.

(** A page before [safeCopyText] is called: no call made yet. *)
Definition fresh (p : page) : page :=
  {| next_id := next_id p; body := body p; ranges := ranges p; calls := [] |}.

(** Every element of the page was made before [next_id]. *)
Definition well_formed (p : page) : Prop :=
  Forall (fun e => el_id e < next_id p) (body p).

(** The calls a block makes: those of its list up to the first one that
    throws, that one included. *)
Fixpoint calls_until (h : host) (cs : list call) : list call :=
  match cs with
  | [] => []
  | c :: cs' => c :: (if throws h c then [] else calls_until h cs')
  end.

Definition execCommand_calls (h : host) (c : call) : list call :=
  if has_execCommand h then [c] else [].

Definition legacy_calls (h : host) : list call :=
  [createTextarea; appendTextarea; selectTextarea; setSelectionRange]
  ++ execCommand_calls h execCommandTextarea ++ [removeTextarea].

Definition manual_calls (h : host) : list call :=
  [getSelection; createRange; createSpan; appendSpan; selectNodeContents;
   removeAllRanges1; addRange]
  ++ execCommand_calls h execCommandSelection
  ++ [removeAllRanges2; removeSpan].

(** What [safeCopyText] returns, from what the host does. *)
Definition expected_outcome (h : host) : outcome :=
  if primary_succeeds h then {| ok := true; method := u16 "navigator.clipboard" |}
  else if legacy_succeeds h then {| ok := true; method := u16 "execCommand" |}
  else if manual_succeeds h then {| ok := true; method := u16 "selection" |}
  else {| ok := false; method := u16 "blocked" |}.

(** The calls [safeCopyText] makes, from what the host does. *)
Definition expected_trace (h : host) : list call :=
  (if primary_available h then [writeText] else [])
  ++ (if primary_succeeds h then []
      else calls_until h (legacy_calls h)
           ++ (if legacy_succeeds h then []
               else calls_until h (manual_calls h))).

(** The strategies [safeCopyText] goes through, from what the host does. *)
Definition expected_attempts (h : host) : list strategy :=
  (if primary_available h then [Primary] else [])
  ++ (if primary_succeeds h then []
      else Legacy :: (if legacy_succeeds h then [] else [Manual])).

(** No call of the legacy block throws between [appendChild] and
    [removeChild], the latter included. *)
Definition legacy_quiet (h : host) : bool :=
  negb (throws h selectTextarea) && negb (throws h setSelectionRange)
  && negb (has_execCommand h && throws h execCommandTextarea)
  && negb (throws h removeTextarea).

Definition manual_quiet (h : host) : bool :=
  negb (throws h selectNodeContents) && negb (throws h removeAllRanges1)
  && negb (throws h addRange)
  && negb (has_execCommand h && throws h execCommandSelection)
  && negb (throws h removeAllRanges2) && negb (throws h removeSpan).

(** A host without the primary API in which [document.execCommand] is
    there and throws, at both places. *)
Definition throwing_host : host :=
  {| navigator_defined := true;
     navigator_clipboard := false;
     isSecureContext := false;
     throws := fun c => match c with
                        | execCommandTextarea | execCommandSelection => true
                        | _ => false
                        end;
     has_execCommand := true;
     execCommand_returns := fun _ => false |}.

Definition empty_page : page :=
  {| next_id := 0; body := []; ranges := []; calls := [] |}.

End Clipboard.

(* ===================================================================== *)
(** ** The Pyodide loader ([loadPyodideOnce], lines 70-101) *)
(* ===================================================================== *)

Module Loader.
Import Js.

(** The [pyodide] object [window.loadPyodide] resolves with, by identity. *)
Definition handle := nat.

(** Where the body of the async function of line 73 is suspended: at the
    [await] of the script load (line 75), of [window.loadPyodide] (line
    83), of [loadPackage] (line 89), of the import of seaborn (line 92) or
    of its installation by micropip (line 94). *)
Inductive stage :=
| AwaitScript
| AwaitBoot
| AwaitPackages (py : handle)
| AwaitSeaborn (py : handle)
| AwaitMicropip (py : handle).

(** The promise that function returns. *)
Inductive promise :=
| Pending (st : stage)
| Fulfilled (py : handle)
| Rejected (e : value).

(** What the host answers to the request a stage waits for. *)
Inductive reply :=
| ScriptOnload (defines_loadPyodide : bool)  (* s.onload; the script has or has not set window.loadPyodide *)
| ScriptOnerror (ev : value)                 (* s.onerror *)
| BootResolved (py : handle)
| BootRejected (e : value)
| PackagesLoaded
| PackagesFailed (e : value)
| SeabornImported
| SeabornMissing (e : value)
| MicropipInstalled
| MicropipFailed (e : value).

(** The state the loader lives in: [window.loadPyodide], the module
    variable [_pyodidePromise] ([None] for [null], else a reference into
    [promises]), the promises made so far by the function of line 73, the
    [script] elements appended to [document.head], and the calls of
    [window.loadPyodide] made so far. *)
Record world := {
  loadPyodide_defined : bool;
  _pyodidePromise : option nat;
  promises : list promise;
  scripts : nat;
  boots : nat
}.

(** Line 83: [window.loadPyodide({...})]; a [TypeError] when the host has
    no such function. *)
Definition call_loadPyodide (w : world) : world * promise :=
  if loadPyodide_defined w then
    ({| loadPyodide_defined := true;
        _pyodidePromise := _pyodidePromise w;
        promises := promises w;
        scripts := scripts w;
        boots := S (boots w) |}, Pending AwaitBoot)
  else
    (w, Rejected (VError (u16 "TypeError")
                         (u16 "window.loadPyodide is not a function"))).

(** Lines 73-82: the function of line 73 runs up to its first [await]. *)
Definition start_init (w : world) : world * promise :=
  if negb (loadPyodide_defined w) then
    ({| loadPyodide_defined := false;
        _pyodidePromise := _pyodidePromise w;
        promises := promises w;
        scripts := S (scripts w);
        boots := boots w |}, Pending AwaitScript)
  else call_loadPyodide w.

(** [loadPyodideOnce()].  The promise an [async] function returns follows
    the one it returns from its body, so the caller is given the reference
    of [_pyodidePromise]. *)
Definition loadPyodideOnce (w : world) : world * nat :=
  match _pyodidePromise w with
  | Some r => (w, r)
  | None =>
      let (w', pr) := start_init w in
      let r := length (promises w') in
      ({| loadPyodide_defined := loadPyodide_defined w';
          _pyodidePromise := Some r;
          promises := promises w' ++ [pr];
          scripts := scripts w';
          boots := boots w' |}, r)
  end.

Definition script_loaded (defines : bool) (w : world) : world :=
  {| loadPyodide_defined := loadPyodide_defined w || defines;
     _pyodidePromise := _pyodidePromise w;
     promises := promises w;
     scripts := scripts w;
     boots := boots w |}.

(** The function of line 73 goes on from a stage when the reply comes, up
    to its next [await], its [return] or the exception that ends it.  A
    reply to a request that is not the pending one does not occur; it is
    ignored. *)
Definition resume (w : world) (st : stage) (rep : reply) : world * promise :=
  match st, rep with
  | AwaitScript, ScriptOnload defines => call_loadPyodide (script_loaded defines w)
  | AwaitScript, ScriptOnerror ev => (w, Rejected ev)
  | AwaitBoot, BootResolved py => (w, Pending (AwaitPackages py))
  | AwaitBoot, BootRejected e => (w, Rejected e)
  | AwaitPackages py, PackagesLoaded => (w, Pending (AwaitSeaborn py))
  | AwaitPackages py, PackagesFailed e => (w, Rejected e)
  | AwaitSeaborn py, SeabornImported => (w, Fulfilled py)
  | AwaitSeaborn py, SeabornMissing _ => (w, Pending (AwaitMicropip py))
  | AwaitMicropip py, MicropipInstalled => (w, Fulfilled py)
  | AwaitMicropip py, MicropipFailed e => (w, Rejected e)
  | _, _ => (w, Pending st)
  end.

(** The host delivers a reply to the promise of reference [r]. *)
Definition deliver (w : world) (r : nat) (rep : reply) : world :=
  match promises w !! r with
  | Some (Pending st) =>
      let (w', pr) := resume w st rep in
      {| loadPyodide_defined := loadPyodide_defined w';
         _pyodidePromise := _pyodidePromise w';
         promises := <[r := pr]> (promises w');
         scripts := scripts w';
         boots := boots w' |}
  | _ => w
  end.

(** What happens on the page, one event at a time: some caller calls
    [loadPyodideOnce], or the host delivers a reply. *)
Inductive action :=
| Call
| Deliver (r : nat) (rep : reply).

(** The page after a list of events, with the references handed to the
    callers, in the order of the calls. *)
Fixpoint run_actions (w : world) (acts : list action) : world * list nat :=
  match acts with
  | [] => (w, [])
  | Call :: acts' =>
      let (w', r) := loadPyodideOnce w in
      let (w'', rs) := run_actions w' acts' in
      (w'', r :: rs)
  | Deliver r rep :: acts' => run_actions (deliver w r rep) acts'
  end.

Definition is_call (a : action) : bool :=
  match a with Call => true | Deliver _ _ => false end.

(** The number of calls in a list of events. *)
Definition count_calls (acts : list action) : nat :=
  length (List.filter is_call acts).

(** The page when the module has just been loaded; [preloaded] tells
    whether the host already has [window.loadPyodide]. *)
Definition initial (preloaded : bool) : world :=
  {| loadPyodide_defined := preloaded;
     _pyodidePromise := None;
     promises := [];
     scripts := 0;
     boots := 0 |}.

Definition settled (pr : promise) : bool :=
  match pr with Pending _ => false | _ => true end.

(** What holds of the page once [n] calls of [loadPyodideOnce] have been
    made, whatever the host has delivered in between: before the first
    call nothing has moved; from the first call on there is one promise,
    [_pyodidePromise] refers to it, one script has been appended unless the
    host had [window.loadPyodide] already, and [window.loadPyodide] has
    been called at most once, and not at all while the script is awaited. *)
Definition inv (preloaded : bool) (n : nat) (w : world) : Prop :=
  match n with
  | 0 => w = initial preloaded
  | S _ =>
      _pyodidePromise w = Some 0
      /\ scripts w = (if preloaded then 0 else 1)
      /\ exists pr, promises w = [pr]
         /\ match pr with
            | Pending AwaitScript => boots w = 0
            | _ => boots w <= 1
            end
  end.

End Loader.

(* ===================================================================== *)
(** ** The code runner ([usePyRunner], lines 106-222) *)
(* ===================================================================== *)

Module Runner.
Import Js Loader.

(** The [status] of the hook: the strings idle, loading, ready, running
    and error. *)
Inductive status_t := st_idle | st_loading | st_ready | st_running | st_error.

(** One instance of the hook ([status], [errMsg], [pyRef.current]) and the
    loader of the module it shares with the other instances. *)
Record state := {
  loader : world;
  status : status_t;
  errMsg : jsstring;
  pyRef : option handle
}.

(** How a call of an [async] function ends for the caller that awaits it:
    it returns, it throws, or it stays suspended at an [await] whose
    promise has not settled. *)
Inductive completion (A : Type) :=
| Returns (a : A)
| Throws (e : value)
| Suspended.
Arguments Returns {A} a.
Arguments Throws {A} e.
Arguments Suspended {A}.

(** The host delivers, in order, the replies the load of reference [r]
    waits for. *)
Definition await_load (w : world) (r : nat) (replies : list reply) : world :=
  fold_left (fun w rep => deliver w r rep) replies w.

(** [ensureReady()], lines 111-125; [replies] is what the host delivers
    while the caller is suspended at line 116. *)
Definition ensureReady (replies : list reply) (s : state)
  : state * completion handle :=
  match pyRef s with
  | Some py => (s, Returns py)
  | None =>
      let (w1, r) := loadPyodideOnce (loader s) in
      let w2 := await_load w1 r replies in
      match promises w2 !! r with
      | Some (Fulfilled py) =>
          ({| loader := w2; status := st_ready; errMsg := [];
              pyRef := Some py |}, Returns py)
      | Some (Rejected e) =>
          ({| loader := w2; status := st_error; errMsg := message_of e;
              pyRef := None |}, Throws e)
      | _ =>
          ({| loader := w2; status := st_loading; errMsg := [];
              pyRef := None |}, Suspended)
      end
  end.

(** The Python put in front of the code, lines 133-189. *)
Definition header : jsstring :=
  u16 "
import sys, io, base64
import numpy as np
import pandas as pd
import matplotlib
matplotlib.use('Agg')
import matplotlib.pyplot as plt

# ---- Seaborn (optional) with offline fallbacks ----
try:
    import seaborn as sns
    _orig_load = sns.load_dataset
    def _safe_load_dataset(name):
        try:
            return _orig_load(name)
        except Exception:
            # Offline/sandbox fallbacks
            if name == 'tips':
                return pd.DataFrame({
                    'total_bill':[16.99,10.34,21.01,23.68,24.59,25.29,8.77,26.88],
                    'tip':[1.01,1.66,3.50,3.31,3.61,4.71,2.00,3.12],
                    'sex':['Female','Male','Male','Male','Female','Male','Female','Male'],
                    'day':['Sun','Sun','Sun','Sun','Sun','Sun','Sat','Sat']
                })
            if name == 'titanic':
                return pd.DataFrame({
                    'survived':[0,1,1,0,1,0,1,0],
                    'pclass':[3,1,3,1,2,3,2,1],
                    'sex':['male','female','female','male','female','male','female','male'],
                    'age':[22,38,26,35,27,28,14,54],
                    'fare':[7.25,71.28,7.92,53.10,10.50,8.05,30.07,51.86],
                    'class':['Third','First','Third','First','Second','Third','Second','First']
                })
            raise
    sns.load_dataset = _safe_load_dataset
    # Preload commonly used datasets so subsequent blocks can reuse
    globals().setdefault('tips', sns.load_dataset('tips'))
    globals().setdefault('titanic', sns.load_dataset('titanic'))
except Exception:
    pass

# ---- stdout capture ----
_stdout_buffer = io.StringIO()
_sys_stdout = sys.stdout
sys.stdout = _stdout_buffer

# ---- Patch plt.show() to emit base64 PNGs ----
_def_show = plt.show
def _capture_show(" ++
  u16 "*args, **kwargs):
    buf = io.BytesIO()
    plt.savefig(buf, format='png', bbox_inches='tight')
    buf.seek(0)
    b64 = base64.b64encode(buf.read()).decode('ascii')
    print('__IMG__' + b64)
    plt.close('all')
plt.show = _capture_show
".

(** The Python put behind the code, lines 191-195. *)
Definition footer : jsstring :=
  u16 "
# ---- Restore stdout and RETURN captured text (do NOT print) ----
sys.stdout = _sys_stdout
_stdout_buffer.getvalue()
".

(** [header + "\n" + code + "\n" + footer], line 200. *)
Definition program (code : jsstring) : jsstring :=
  header ++ [LF] ++ code ++ [LF] ++ footer.

(** How [py.runPythonAsync(...)] ends: with the value of the last
    expression, with an exception, or not at all. *)
Inductive py_outcome :=
| PyReturns (out : value)
| PyRaises (e : value)
| PyHangs.

(** The runtime behind a [pyodide] object. *)
Definition runtime := handle -> jsstring -> py_outcome.

(** What [run] returns: [{ images, text }], with [error] on failure. *)
Record result := {
  images : list jsstring;
  text : jsstring;
  error : option jsstring
}.

(** [run(code)], lines 127-219. *)
Definition run (replies : list reply) (rt : runtime) (code : jsstring)
           (s : state) : state * completion result :=
  let (s1, c) := ensureReady replies s in
  match c with
  | Throws e => (s1, Throws e)
  | Suspended => (s1, Suspended)
  | Returns py =>
      let s2 := {| loader := loader s1; status := st_running; errMsg := [];
                   pyRef := pyRef s1 |} in
      match rt py (program code) with
      | PyReturns out =>
          let parsed := Parser.parse_output (String_ out) in
          ({| loader := loader s2; status := st_ready; errMsg := errMsg s2;
              pyRef := pyRef s2 |},
           Returns {| images := Parser.images parsed;
                      text := Parser.text parsed;
                      error := None |})
      | PyRaises e =>
          ({| loader := loader s2; status := st_error;
              errMsg := message_of e; pyRef := pyRef s2 |},
           Returns {| images := []; text := [];
                      error := Some (message_of e) |})
      | PyHangs => (s2, Suspended)
      end
  end.

(** What the code between [header] and [footer] does, as far as [run] can
    tell: it prints, it shows a figure, it raises. *)
Inductive guest_action :=
| Print (s : jsstring)
| Show (b64 : jsstring)
| Raise (message : jsstring).

(** The instrumented program, run from the buffer [header] has put in
    place of [sys.stdout] (lines 175-177): [print] writes its line into the
    buffer, the patched [plt.show] prints the sentinel and the image (line
    186), an exception ends the program and reaches JavaScript as a
    [PythonError]; [footer] gives back the content of the buffer (line
    194). *)
Fixpoint exec_guest (buffer : jsstring) (acts : list guest_action) : py_outcome :=
  match acts with
  | [] => PyReturns (VString buffer)
  | Print s :: acts' => exec_guest (buffer ++ s ++ [LF]) acts'
  | Show b64 :: acts' => exec_guest (buffer ++ Parser.sentinel ++ b64 ++ [LF]) acts'
  | Raise message :: _ => PyRaises (VError (u16 "PythonError") message)
  end.

Definition instrumented (acts : list guest_action) : py_outcome :=
  exec_guest [] acts.

Definition is_raise (a : guest_action) : bool :=
  match a with Raise _ => true | _ => false end.

(** [String.prototype.includes]. *)
Fixpoint includes (s pat : jsstring) : bool :=
  startsWith s pat ||
  match s with
  | [] => false
  | _ :: s' => includes s' pat
  end.

(** A hook that has not been used, on a page whose module has just been
    loaded. *)
Definition fresh_state (preloaded : bool) : state :=
  {| loader := initial preloaded; status := st_idle; errMsg := [];
     pyRef := None |}.

(** The [Event] a failed script load rejects with. *)
Definition load_error : value := VObject (u16 "[object Event]").

(** The replies of a host on which the load succeeds. *)
Definition good_replies : list reply :=
  [ScriptOnload true; BootResolved 7; PackagesLoaded; SeabornImported].

(** A runtime whose programs print nothing. *)
Definition silent_runtime : runtime := fun _ _ => PyReturns (VString []).

(** A guest that prints and then raises, and a runtime that runs it. *)
Definition partial_guest : list guest_action :=
  [Print (u16 "partial"); Raise (u16 "ValueError: boom")].

Definition partial_runtime : runtime := fun _ _ => instrumented partial_guest.

(** The hook once a first [ensureReady] has failed on a script that could
    not be fetched. *)
Definition failed_state : state :=
  fst (ensureReady [ScriptOnerror load_error] (fresh_state false)).

End Runner.

(* ===================================================================== *)
(** ** The guests the parser is fed by *)
(* ===================================================================== *)

Module Guest.
Import Js Runner.

(** No line feed in a string. *)
Definition one_line (s : jsstring) : bool :=
  forallb (fun c => negb (N.eqb c LF)) s.

(** A guest action that writes one line into the buffer and whose line is
    what it seems to be: a printed line does not begin with the sentinel,
    and neither a printed line nor an image holds a line feed.  Nothing
    raises. *)
Definition plain (a : guest_action) : bool :=
  match a with
  | Print s => one_line s && negb (startsWith s Parser.sentinel)
  | Show b64 => one_line b64
  | Raise _ => false
  end.

(** The images a list of actions shows, in order. *)
Fixpoint shown (acts : list guest_action) : list jsstring :=
  match acts with
  | [] => []
  | Show b64 :: acts' => b64 :: shown acts'
  | _ :: acts' => shown acts'
  end.

(** The lines a list of actions prints, in order. *)
Fixpoint printed (acts : list guest_action) : list jsstring :=
  match acts with
  | [] => []
  | Print s :: acts' => s :: printed acts'
  | _ :: acts' => printed acts'
  end.

(** The line an action writes into the buffer. *)
Definition written (a : guest_action) : jsstring :=
  match a with
  | Print s => s
  | Show b64 => Parser.sentinel ++ b64
  | Raise _ => []
  end.

End Guest.

(* ===================================================================== *)
(** ** Where the outcome of a load comes from *)
(* ===================================================================== *)

Module Provenance.
Import Js Loader.

(** The exception of line 83 when the host has no [window.loadPyodide]. *)
Definition missing_loader : value :=
  VError (u16 "TypeError") (u16 "window.loadPyodide is not a function").

(** The replies a promise in a given state must have been delivered,
    among the events [seen] so far: the handle it carries is the one
    [window.loadPyodide] resolved with, the packages were loaded before
    seaborn was tried, seaborn was imported or installed before the load
    succeeded, and a failure is one the host delivered (for the script, the
    boot, the packages or the installation) or the missing loader. *)
Definition justified (r : nat) (pr : promise) (seen : list action) : Prop :=
  match pr with
  | Pending AwaitScript | Pending AwaitBoot => True
  | Pending (AwaitPackages py) => In (Deliver r (BootResolved py)) seen
  | Pending (AwaitSeaborn py) =>
      In (Deliver r (BootResolved py)) seen
      /\ In (Deliver r PackagesLoaded) seen
  | Pending (AwaitMicropip py) =>
      In (Deliver r (BootResolved py)) seen
      /\ In (Deliver r PackagesLoaded) seen
      /\ exists e, In (Deliver r (SeabornMissing e)) seen
  | Fulfilled py =>
      In (Deliver r (BootResolved py)) seen
      /\ In (Deliver r PackagesLoaded) seen
      /\ (In (Deliver r SeabornImported) seen
          \/ In (Deliver r MicropipInstalled) seen)
  | Rejected e =>
      e = missing_loader
      \/ In (Deliver r (ScriptOnerror e)) seen
      \/ In (Deliver r (BootRejected e)) seen
      \/ In (Deliver r (PackagesFailed e)) seen
      \/ In (Deliver r (MicropipFailed e)) seen
  end.

(** Every promise of the page is justified by the events seen. *)
Definition all_justified (w : world) (seen : list action) : Prop :=
  forall r pr, promises w !! r = Some pr -> justified r pr seen.

End Provenance.

(* ===================================================================== *)
(** ** What the clipboard writer leaves behind *)
(* ===================================================================== *)

Module Leak.
Import Js Clipboard.

(** The legacy block has appended its textarea and a call between
    [appendChild] and [removeChild], the latter included, throws. *)
Definition legacy_leaves (h : host) : bool :=
  negb (throws h createTextarea) && negb (throws h appendTextarea)
  && negb (legacy_quiet h).

(** The manual block has appended its span and a call between
    [appendChild] and [removeChild], the latter included, throws. *)
Definition manual_leaves (h : host) : bool :=
  negb (throws h getSelection) && negb (throws h createRange)
  && negb (throws h createSpan) && negb (throws h appendSpan)
  && negb (manual_quiet h).

End Leak.

(* ===================================================================== *)
(** ** The components around the three functions *)
(* ===================================================================== *)

Module Ui.
Import Js.

(** *** [classNames] (line 18) *)

(** The arguments [classNames] is called with: class strings, and what
    [cond && "class"] leaves when [cond] is not truthy. *)
Inductive class_arg :=
| CBool (b : bool)
| CUndefined
| CNull
| CString (s : jsstring).

(** [Boolean(x)], the predicate of [xs.filter(Boolean)]. *)
Definition Boolean (x : class_arg) : bool :=
  match x with
  | CBool b => b
  | CUndefined | CNull => false
  | CString s => truthy_length (length s)
  end.

(** What [Array.prototype.join] makes of an element: the empty string for
    [undefined] and [null], [String(x)] otherwise. *)
Definition join_text (x : class_arg) : jsstring :=
  match x with
  | CBool true => u16 "true"
  | CBool false => u16 "false"
  | CUndefined | CNull => []
  | CString s => s
  end.

(** [Array.prototype.join(sep)] on strings. *)
Fixpoint join (sep : jsstring) (xs : list jsstring) : jsstring :=
  match xs with
  | [] => []
  | x :: xs' =>
      match xs' with
      | [] => x
      | _ :: _ => x ++ sep ++ join sep xs'
      end
  end.

(** [(...xs) => xs.filter(Boolean).join(" ")]. *)
Definition classNames (xs : list class_arg) : jsstring :=
  join (u16 " ") (map join_text (List.filter Boolean xs)).

(** *** [useCountdown] (lines 369-381) *)

(** The decimal digits of a natural number, the most significant first. *)
Fixpoint digits (fuel : nat) (n : N) (acc : jsstring) : jsstring :=
  match fuel with
  | 0 => acc
  | S fuel' =>
      let acc' := (48 + n mod 10)%N :: acc in
      if (n <? 10)%N then acc' else digits fuel' (n / 10)%N acc'
  end.

(** [Number.prototype.toString()] on an integer (of a size at which it is
    written without exponent). *)
Definition toString (z : Z) : jsstring :=
  match z with
  | Z0 => u16 "0"
  | Zpos p => digits (S (N.size_nat (Npos p))) (Npos p) []
  | Zneg p => u16 "-" ++ digits (S (N.size_nat (Npos p))) (Npos p) []
  end.

(** [String.prototype.padStart(targetLength, "0")]. *)
Definition padStart (targetLength : nat) (s : jsstring) : jsstring :=
  repeat 48%N (targetLength - length s) ++ s.

(** The state of the hook: [secsLeft] (an integer number of seconds) and
    [running]. *)
Record countdown := { secsLeft : Z; running : bool }.

(** [useCountdown(minutes)] at the first render. *)
Definition useCountdown (minutes : Z) : countdown :=
  {| secsLeft := minutes * 60; running := false |}.

(** The updater of line 374: [(s) => (s > 0 ? s - 1 : 0)]. *)
Definition tick (s : Z) : Z := if (s >? 0)%Z then (s - 1)%Z else 0%Z.

(** Lines 378-380: [mm], [ss] and [display]; [Math.floor(secsLeft / 60)] is
    the quotient rounded down, [%] the remainder with the sign of
    [secsLeft]. *)
Definition mm (c : countdown) : jsstring :=
  padStart 2 (toString (secsLeft c / 60)).

Definition ss (c : countdown) : jsstring :=
  padStart 2 (toString (Z.rem (secsLeft c) 60)).

Definition display (c : countdown) : jsstring := mm c ++ u16 ":" ++ ss c.

(** What happens to the timer: the interval of line 374 fires, the
    Start/Pause button is clicked (line 615), the Reset button is clicked
    (line 621). *)
Inductive timer_event := Interval | StartPause | ResetClick.

(** The interval exists only while [running] is true (lines 372-376), so
    its callback has no effect on a paused timer. *)
Definition timer_step (minutes : Z) (c : countdown) (ev : timer_event)
  : countdown :=
  match ev with
  | Interval =>
      if running c
      then {| secsLeft := tick (secsLeft c); running := running c |}
      else c
  | StartPause => {| secsLeft := secsLeft c; running := negb (running c) |}
  | ResetClick => {| secsLeft := minutes * 60; running := running c |}
  end.

Definition timer_run (minutes : Z) (evs : list timer_event) : countdown :=
  fold_left (timer_step minutes) evs (useCountdown minutes).


(** Two decimal digits for a number below one hundred. *)
Definition two_digits (n : Z) : jsstring :=
  [Z.to_N (48 + n / 10); Z.to_N (48 + n mod 10)].

(** *** [QuizBlock] (lines 459-509) *)

(** One entry of [quiz]. *)
Record quiz_item := {
  q : jsstring;
  choices : list jsstring;
  a : nat;
  explain : jsstring
}.

(** The state of the block: [answers], an object from question index to
    choice index, and [submitted]. *)
Record quiz_state := { answers : gmap nat nat; submitted : bool }.

Definition quiz_initial : quiz_state :=
  {| answers := ∅; submitted := false |}.

Inductive quiz_event :=
| Choose (idx cidx : nat)   (* onChange of a radio button, line 478 *)
| Submit                    (* line 495 *)
| ResetQuiz.                (* line 501 *)

Definition quiz_step (s : quiz_state) (ev : quiz_event) : quiz_state :=
  match ev with
  | Choose idx cidx =>
      {| answers := <[idx := cidx]> (answers s); submitted := submitted s |}
  | Submit => {| answers := answers s; submitted := true |}
  | ResetQuiz => quiz_initial
  end.

Definition quiz_run (evs : list quiz_event) : quiz_state :=
  fold_left quiz_step evs quiz_initial.

(** [selected === n] and [selected !== undefined], with [selected] being
    [answers[idx]]. *)
Definition selected_is (s : quiz_state) (idx n : nat) : bool :=
  bool_decide (answers s !! idx = Some n).

Definition selected_defined (s : quiz_state) (idx : nat) : bool :=
  bool_decide (is_Some (answers s !! idx)).

(** Lines 466-467. *)
Definition correct (s : quiz_state) (idx : nat) (item : quiz_item) : bool :=
  submitted s && selected_is s idx (a item).

Definition wrong (s : quiz_state) (idx : nat) (item : quiz_item) : bool :=
  submitted s && selected_defined s idx && negb (selected_is s idx (a item)).

(** Lines 484-489: the text under a question, if any. *)
Definition feedback (s : quiz_state) (idx : nat) (item : quiz_item)
  : option jsstring :=
  if submitted s then
    Some (if correct s idx item then [0x2705%N] ++ u16 " Correct."
          else if wrong s idx item
               then [0x274C%N] ++ u16 " Incorrect. " ++ explain item
               else explain item)
  else None.

(** The choice made last for a question since the last reset, read off
    the events. *)
Fixpoint last_choice (evs : list quiz_event) (idx : nat) (acc : option nat)
  : option nat :=
  match evs with
  | [] => acc
  | Choose i c :: evs' =>
      last_choice evs' idx (if Nat.eqb i idx then Some c else acc)
  | Submit :: evs' => last_choice evs' idx acc
  | ResetQuiz :: evs' => last_choice evs' idx None
  end.

(** Whether a Submit has come since the last reset, read off the events. *)
Fixpoint submitted_after (evs : list quiz_event) (acc : bool) : bool :=
  match evs with
  | [] => acc
  | Choose _ _ :: evs' => submitted_after evs' acc
  | Submit :: evs' => submitted_after evs' true
  | ResetQuiz :: evs' => submitted_after evs' false
  end.

(** *** [CopyButton] (lines 247-285) and [ClipboardDiagnostics] (552-583) *)

(** The state of a copy button: [{ ok, method, error }] and [busy]. *)
Record copy_button := {
  cb_ok : bool;
  cb_method : option jsstring;
  cb_error : option jsstring;
  cb_busy : bool
}.

(** [handleCopy], lines 251-263, from the click to the end of the
    [finally].  [thrown] stands for what [safeCopyText] would throw into
    the [catch] of line 258. *)
Definition handleCopy (h : Clipboard.host) (thrown : value) (text : jsstring)
           (b : copy_button) (p : Clipboard.page)
  : copy_button * Clipboard.page :=
  match Clipboard.safeCopyText h text p with
  | (Some res, p') =>
      (if Clipboard.ok res then
         {| cb_ok := true; cb_method := Some (Clipboard.method res);
            cb_error := None; cb_busy := false |}
       else
         {| cb_ok := false; cb_method := Some (Clipboard.method res);
            cb_error := Some (u16 "Clipboard blocked by policy");
            cb_busy := false |}, p')
  | (None, p') =>
      ({| cb_ok := false; cb_method := None;
          cb_error := Some (message_of thrown); cb_busy := false |}, p')
  end.

(** The callback of the timer of line 257, 1200 ms after a copy:
    [(s) => ({ ...s, ok: false })]. *)
Definition copy_timeout (b : copy_button) : copy_button :=
  {| cb_ok := false; cb_method := cb_method b; cb_error := cb_error b;
     cb_busy := cb_busy b |}.

(** Line 278: the caption of the button; a [method] that is [null] is
    written null by the template literal. *)
Definition caption (label : jsstring) (b : copy_button) : jsstring :=
  if cb_ok b then
    u16 "Copied (" ++
    (match cb_method b with Some m => m | None => u16 "null" end) ++ u16 ")"
  else label.

(** The state of [ClipboardDiagnostics]: [result] and [busy]. *)
Record diagnostics := {
  dg_result : option Clipboard.outcome;
  dg_busy : bool
}.

(** The text copied by the diagnostics, line 555; it ends with a check
    mark. *)
Definition sample : jsstring := u16 "Clipboard test: 12345 " ++ [0x2713%N].

(** [run] of [ClipboardDiagnostics], lines 557-562: no [try] around the
    call, so an exception would leave [busy] set. *)
Definition diagnostics_run (h : Clipboard.host) (d : diagnostics)
           (p : Clipboard.page) : diagnostics * Clipboard.page :=
  match Clipboard.safeCopyText h sample p with
  | (Some res, p') => ({| dg_result := Some res; dg_busy := false |}, p')
  | (None, p') => ({| dg_result := dg_result d; dg_busy := true |}, p')
  end.

(** *** [CodeBlock] (lines 294-366) *)

(** The state of a code block besides its hook: [out], [running] and
    [hasRun]. *)
Record code_block := {
  out : Runner.result;
  cb_running : bool;
  hasRun : bool
}.

(** [onRun], lines 300-309: [setOut] and [setHasRun] only when [run]
    returns, [setRunning(false)] in the [finally]. *)
Definition onRun (replies : list Loader.reply) (rt : Runner.runtime)
           (code : jsstring) (s : Runner.state) (c : code_block)
  : Runner.state * code_block * Runner.completion unit :=
  match Runner.run replies rt code s with
  | (s', Runner.Returns r) =>
      (s', {| out := r; cb_running := false; hasRun := true |},
       Runner.Returns tt)
  | (s', Runner.Throws e) =>
      (s', {| out := out c; cb_running := false; hasRun := hasRun c |},
       Runner.Throws e)
  | (s', Runner.Suspended) =>
      (s', {| out := out c; cb_running := true; hasRun := hasRun c |},
       Runner.Suspended)
  end.

(** Line 318: the Run button is disabled. *)
Definition run_disabled (s : Runner.state) (c : code_block) : bool :=
  cb_running c ||
  match Runner.status s with Runner.st_loading => true | _ => false end.

(** Line 360: [status === "error" && errMsg], the error box is displayed. *)
Definition error_shown (s : Runner.state) : bool :=
  match Runner.status s with
  | Runner.st_error => truthy_length (length (Runner.errMsg s))
  | _ => false
  end.

(** Line 330: [status === 'idle'], the Load runtime button is displayed. *)
Definition load_button_shown (s : Runner.state) : bool :=
  match Runner.status s with Runner.st_idle => true | _ => false end.

End Ui.

(* ===================================================================== *)
(** ** Facts about the parser *)
(* ===================================================================== *)

Module ParserFacts.
Import Js Parser.

(** When the string starts with the pattern, the first occurrence is the
    prefix, and [replace] removes exactly that. *)
Lemma replace_prefix (s pat rep : jsstring) :
  startsWith s pat = true -> replace s pat rep = rep ++ drop (length pat) s.
Proof. intros H. destruct s; cbn [replace]; rewrite H; reflexivity. Qed.

Lemma payload_data_url (b64 : jsstring) : payload (data_url b64) = b64.
Proof. reflexivity. Qed.

Lemma forallb_trimStart (s : jsstring) :
  forallb is_white_space (trimStart s) = forallb is_white_space s.
Proof.
  induction s as [|c s IH]; simpl; [reflexivity|].
  destruct (is_white_space c) eqn:E; simpl; [exact IH|].
  rewrite E. reflexivity.
Qed.

Lemma trimStart_nil_iff (s : jsstring) :
  trimStart s = [] <-> forallb is_white_space s = true.
Proof.
  induction s as [|c s IH]; simpl; [tauto|].
  destruct (is_white_space c); simpl; [exact IH|].
  split; intros H; discriminate H.
Qed.

Lemma forallb_rev {A} (f : A -> bool) (l : list A) :
  forallb f (rev l) = forallb f l.
Proof.
  induction l as [|x l IH]; simpl; [reflexivity|].
  rewrite forallb_app, IH. simpl. rewrite andb_true_r. apply andb_comm.
Qed.

(** [line.trim().length] is zero exactly on the lines made of white space
    only. *)
Lemma trim_length_blank (l : jsstring) :
  truthy_length (length (trim l)) = negb (is_blank l).
Proof.
  unfold trim, trimEnd, is_blank, truthy_length.
  rewrite length_rev.
  destruct (forallb is_white_space l) eqn:E.
  - apply trimStart_nil_iff in E. rewrite E. reflexivity.
  - destruct (trimStart (rev (trimStart l))) as [|c r] eqn:T; [|reflexivity].
    apply trimStart_nil_iff in T.
    rewrite forallb_rev, forallb_trimStart, E in T. discriminate T.
Qed.

Lemma parse_line_spec (acc : output) (l : jsstring) :
  parse_line acc l =
  {| images := images acc ++ line_images l; text := text acc ++ line_text l |}.
Proof.
  unfold parse_line, line_images, line_text, is_image_line.
  destruct (startsWith l sentinel) eqn:E.
  - rewrite (replace_prefix _ _ _ E), app_nil_r. reflexivity.
  - rewrite trim_length_blank. destruct (is_blank l); simpl.
    + rewrite !app_nil_r. destruct acc; reflexivity.
    + rewrite app_nil_r. reflexivity.
Qed.

Lemma fold_parse_line (ls : list jsstring) (acc : output) :
  fold_left parse_line ls acc =
  {| images := images acc ++ concat (map line_images ls);
     text := text acc ++ concat (map line_text ls) |}.
Proof.
  revert acc. induction ls as [|l ls IH]; intros acc; simpl.
  - rewrite !app_nil_r. destruct acc; reflexivity.
  - rewrite IH, parse_line_spec. simpl. rewrite <- !app_assoc. reflexivity.
Qed.

Lemma parse_lines_images (ls : list jsstring) :
  images (parse_lines ls) = concat (map line_images ls).
Proof. unfold parse_lines. rewrite fold_parse_line. reflexivity. Qed.

Lemma parse_lines_text (ls : list jsstring) :
  text (parse_lines ls) = concat (map line_text ls).
Proof. unfold parse_lines. rewrite fold_parse_line. reflexivity. Qed.

Lemma concat_line_images (ls : list jsstring) :
  concat (map line_images ls) =
  map (fun l => data_url (drop (length sentinel) l))
      (List.filter is_image_line ls).
Proof.
  induction ls as [|l ls IH]; simpl; [reflexivity|].
  unfold line_images at 1. destruct (is_image_line l); simpl; rewrite IH; reflexivity.
Qed.

Lemma concat_line_text_keep (keep : jsstring -> bool) (ls : list jsstring) :
  (forall l, line_text l = if keep l then l ++ [LF] else []) ->
  concat (map line_text ls) =
  concat (map (fun l => l ++ [LF]) (List.filter keep ls)).
Proof.
  intros K. induction ls as [|l ls IH]; simpl; [reflexivity|].
  rewrite K, IH. destruct (keep l); reflexivity.
Qed.

Lemma concat_line_text_no_images (ls : list jsstring) :
  concat (map line_text ls) =
  concat (map line_text (List.filter (fun l => negb (is_image_line l)) ls)).
Proof.
  induction ls as [|l ls IH]; simpl; [reflexivity|].
  destruct (is_image_line l) eqn:E; simpl; rewrite IH.
  - unfold line_text. rewrite E. reflexivity.
  - reflexivity.
Qed.

Example parse_ex1 :
  parse_output (u16 "a
__IMG__QUJD

b") = {| images := [u16 "data:image/png;base64,QUJD"]; text := u16 "a
b
" |}.
Proof. vm_compute. reflexivity. Qed.

(** C6.  Every line of the raw output that begins with the sentinel gives
    exactly one image artifact, whose payload is the line without the
    sentinel; the artifacts come in the order of the lines; the text is the
    one the raw output has once its sentinel lines are taken out.  The raw
    line [__IMG__AAAA] gives the single artifact of payload [AAAA] and no
    text. *)
Theorem image_records_in_order :
  (forall raw : jsstring,
      let image_lines := List.filter is_image_line (split_nl raw) in
      images (parse_output raw) =
        map (fun l => data_url (drop (length sentinel) l)) image_lines
      /\ map payload (images (parse_output raw)) =
        map (drop (length sentinel)) image_lines
      /\ length (images (parse_output raw)) = length image_lines
      /\ text (parse_output raw) =
        text (parse_lines
                (List.filter (fun l => negb (is_image_line l)) (split_nl raw))))
  /\ parse_output (sentinel ++ u16 "AAAA") =
       {| images := [data_url (u16 "AAAA")]; text := [] |}
  /\ map payload (images (parse_output (u16 "__IMG__AAAA
out
__IMG__BBBB
__IMG__CCCC"))) = [u16 "AAAA"; u16 "BBBB"; u16 "CCCC"].
Proof.
  split; [|split; vm_compute; reflexivity].
  intros raw image_lines. unfold parse_output.
  assert (I : images (parse_lines (split_nl raw)) =
              map (fun l => data_url (drop (length sentinel) l)) image_lines).
  { rewrite parse_lines_images. apply concat_line_images. }
  split; [exact I|]. split; [|split].
  - rewrite I, map_map. apply map_ext. intros l. apply payload_data_url.
  - rewrite I. apply length_map.
  - rewrite !parse_lines_text. apply concat_line_text_no_images.
Qed.

(** C7.  The text is made of the non-blank lines that do not begin with the
    sentinel, each followed by a line feed, in the order of the raw output;
    blank lines leave no trace.  The raw output x, two empty lines, y gives
    the text x, y. *)
Theorem text_lines_in_order :
  (forall raw : jsstring,
      text (parse_output raw) =
        concat (map (fun l => l ++ [LF])
                    (List.filter is_text_line (split_nl raw))))
  /\ is_text_line [] = false
  /\ text (parse_output (u16 "x

y
")) = u16 "x
y
".
Proof.
  split; [|split; vm_compute; reflexivity].
  intros raw. unfold parse_output. rewrite parse_lines_text.
  apply concat_line_text_keep. intros l.
  unfold line_text, is_text_line, is_image_line.
  rewrite trim_length_blank.
  destruct (startsWith l sentinel), (is_blank l); reflexivity.
Qed.

(** C10.  A line is dropped from the text as soon as all its code units are
    white space (spaces, tabs, ...), not only when it is empty; a line that
    does not begin with the sentinel and holds one code unit that is not
    white space is copied as it is, with the white space around it, and
    followed by a line feed. *)
Theorem whitespace_only_lines_dropped :
  (forall raw : jsstring,
      text (parse_output raw) =
        concat (map (fun l =>
                       if startsWith l sentinel then []
                       else if forallb is_white_space l then []
                       else l ++ [LF])
                    (split_nl raw)))
  /\ (forall l : jsstring,
        truthy_length (length (trim l)) = negb (forallb is_white_space l))
  /\ text (parse_output (u16 "   ")) = []
  /\ text (parse_output [0x9; 0x20; 0x9]%N) = []
  /\ text (parse_output (u16 "  a b  
   
c")) = u16 "  a b  
c
".
Proof.
  split; [|split; [exact trim_length_blank|repeat split; vm_compute; reflexivity]].
  intros raw. unfold parse_output. rewrite parse_lines_text. reflexivity.
Qed.

End ParserFacts.

(* ===================================================================== *)
(** ** Facts about the clipboard writer *)
(* ===================================================================== *)

Module ClipboardFacts.
Import Js Clipboard.

#[local] Arguments u16 : simpl never.

Ltac case_throws h c :=
  destruct (throws h c) eqn:?; cbn; [split; reflexivity|].

Lemma primary_run (h : host) (text : jsstring) (p : page) :
  fst (primary h text p) =
    Some (if primary_succeeds h
          then Some {| ok := true; method := u16 "navigator.clipboard" |}
          else None)
  /\ calls (snd (primary h text p)) =
    (if primary_available h then [writeText] else []) ++ calls p.
Proof.
  unfold primary, primary_succeeds, primary_available.
  destruct (navigator_defined h && navigator_clipboard h && isSecureContext h);
    [|split; reflexivity].
  unfold try_catch, bind, host_call, ret, no_effect. cbn.
  destruct (throws h writeText); split; reflexivity.
Qed.

Lemma legacy_run (h : host) (text : jsstring) (p : page) :
  fst (legacy h text p) =
    Some (if legacy_succeeds h
          then Some {| ok := true; method := u16 "execCommand" |}
          else None)
  /\ calls (snd (legacy h text p)) =
    rev (calls_until h (legacy_calls h)) ++ calls p.
Proof.
  unfold legacy, legacy_succeeds, legacy_calls, execCommand_calls,
    execCommand_copy, execCommand_ok.
  unfold try_catch, bind, host_call, ret, no_effect. cbn.
  case_throws h createTextarea. case_throws h appendTextarea.
  case_throws h selectTextarea. case_throws h setSelectionRange.
  destruct (has_execCommand h); cbn.
  - case_throws h execCommandTextarea.
    destruct (throws h removeTextarea), (execCommand_returns h execCommandTextarea);
      split; reflexivity.
  - destruct (throws h removeTextarea); split; reflexivity.
Qed.

Lemma manual_run (h : host) (text : jsstring) (p : page) :
  fst (manual h text p) =
    Some (if manual_succeeds h
          then Some {| ok := true; method := u16 "selection" |}
          else None)
  /\ calls (snd (manual h text p)) =
    rev (calls_until h (manual_calls h)) ++ calls p.
Proof.
  unfold manual, manual_succeeds, manual_calls, execCommand_calls,
    execCommand_copy, execCommand_ok.
  unfold try_catch, bind, host_call, ret, no_effect. cbn.
  case_throws h getSelection. case_throws h createRange.
  case_throws h createSpan. case_throws h appendSpan.
  case_throws h selectNodeContents. case_throws h removeAllRanges1.
  case_throws h addRange.
  destruct (has_execCommand h); cbn.
  - case_throws h execCommandSelection.
    destruct (execCommand_returns h execCommandSelection); cbn;
      case_throws h removeAllRanges2;
      destruct (throws h removeSpan); split; reflexivity.
  - case_throws h removeAllRanges2.
    destruct (throws h removeSpan); split; reflexivity.
Qed.

Lemma safeCopyText_run (h : host) (text : jsstring) (p : page) :
  fst (safeCopyText h text p) = Some (expected_outcome h)
  /\ calls (snd (safeCopyText h text p)) = rev (expected_trace h) ++ calls p.
Proof.
  unfold safeCopyText, expected_outcome, expected_trace, bind.
  destruct (primary_run h text p) as [R1 C1].
  destruct (primary h text p) as [r1 p1]. cbn [fst snd] in R1, C1. subst r1.
  destruct (primary_succeeds h); cbn.
  - rewrite app_nil_r. split; [reflexivity|].
    rewrite C1. destruct (primary_available h); reflexivity.
  - destruct (legacy_run h text p1) as [R2 C2].
    destruct (legacy h text p1) as [r2 p2]. cbn [fst snd] in R2, C2. subst r2.
    destruct (legacy_succeeds h); cbn.
    + split; [reflexivity|].
      rewrite app_nil_r, C2, C1, rev_app_distr, <- app_assoc.
      destruct (primary_available h); reflexivity.
    + destruct (manual_run h text p2) as [R3 C3].
      destruct (manual h text p2) as [r3 p3]. cbn [fst snd] in R3, C3. subst r3.
      assert (C : calls p3 =
                  rev ((if primary_available h then [writeText] else [])
                       ++ calls_until h (legacy_calls h)
                       ++ calls_until h (manual_calls h)) ++ calls p).
      { rewrite C3, C2, C1, !rev_app_distr, <- !app_assoc.
        destruct (primary_available h); reflexivity. }
      destruct (manual_succeeds h); cbn; split; (reflexivity || exact C).
Qed.

Lemma calls_until_strategy (h : host) (s : strategy) (cs : list call) :
  Forall (fun c => strategy_of c = s) cs ->
  Forall (fun c => strategy_of c = s) (calls_until h cs).
Proof.
  induction 1 as [|c cs Hc Hcs IH]; cbn; constructor; [exact Hc|].
  destruct (throws h c); [constructor|exact IH].
Qed.

Lemma calls_until_nonempty (h : host) (cs : list call) :
  cs <> [] -> calls_until h cs <> [].
Proof. destruct cs; cbn; [intros H; now contradict H|discriminate]. Qed.

Lemma attempted_block (s : strategy) (cs rest : list call) :
  Forall (fun c => strategy_of c = s) cs -> cs <> [] ->
  attempted (cs ++ rest) =
    match attempted rest with
    | s' :: ss => if decide (s = s') then s' :: ss else s :: s' :: ss
    | [] => [s]
    end.
Proof.
  induction 1 as [|c cs Hc Hcs IH]; intros NE; [now contradict NE|].
  cbn [app attempted]. rewrite Hc.
  destruct cs as [|c' cs'].
  - cbn [app]. reflexivity.
  - rewrite IH by discriminate.
    destruct (attempted rest) as [|s' ss].
    + rewrite decide_True by reflexivity. reflexivity.
    + destruct (decide (s = s')) as [->|N].
      * rewrite decide_True by reflexivity. reflexivity.
      * rewrite decide_True by reflexivity. reflexivity.
Qed.

Lemma legacy_calls_strategy (h : host) :
  Forall (fun c => strategy_of c = Legacy) (legacy_calls h)
  /\ legacy_calls h <> [].
Proof.
  unfold legacy_calls, execCommand_calls.
  destruct (has_execCommand h); cbn; split; try discriminate;
    repeat constructor.
Qed.

Lemma manual_calls_strategy (h : host) :
  Forall (fun c => strategy_of c = Manual) (manual_calls h)
  /\ manual_calls h <> [].
Proof.
  unfold manual_calls, execCommand_calls.
  destruct (has_execCommand h); cbn; split; try discriminate;
    repeat constructor.
Qed.

Lemma attempted_expected_trace (h : host) :
  attempted (expected_trace h) = expected_attempts h.
Proof.
  unfold expected_trace, expected_attempts.
  destruct (legacy_calls_strategy h) as [FL NL].
  destruct (manual_calls_strategy h) as [FM NM].
  pose proof (calls_until_strategy h _ _ FL) as FL'.
  pose proof (calls_until_strategy h _ _ FM) as FM'.
  pose proof (calls_until_nonempty h _ NL) as NL'.
  pose proof (calls_until_nonempty h _ NM) as NM'.
  assert (T : attempted
                (calls_until h (legacy_calls h)
                 ++ (if legacy_succeeds h then []
                     else calls_until h (manual_calls h))) =
              Legacy :: (if legacy_succeeds h then [] else [Manual])).
  { rewrite (attempted_block Legacy) by assumption.
    destruct (legacy_succeeds h); [reflexivity|].
    rewrite <- (app_nil_r (calls_until h (manual_calls h))).
    rewrite (attempted_block Manual) by assumption. reflexivity. }
  destruct (primary_available h), (primary_succeeds h); cbn [app];
    try reflexivity; try exact T.
  change (attempted ([writeText] ++ calls_until h (legacy_calls h)
                     ++ (if legacy_succeeds h then []
                         else calls_until h (manual_calls h))) =
          Primary :: Legacy :: (if legacy_succeeds h then [] else [Manual])).
  rewrite (attempted_block Primary) by (repeat constructor || discriminate).
  rewrite T. reflexivity.
Qed.

(** [removeChild] undoes [appendChild] of an element just created. *)
Lemma filter_fresh_id (b : list element) (e : element) :
  Forall (fun x => el_id x < el_id e) b ->
  List.filter (fun x => negb (Nat.eqb (el_id x) (el_id e))) (b ++ [e]) = b.
Proof.
  induction 1 as [|x b Hx Hb IH]; cbn.
  - rewrite Nat.eqb_refl. reflexivity.
  - destruct (Nat.eqb_spec (el_id x) (el_id e)) as [E|_]; [lia|].
    cbn. rewrite IH. reflexivity.
Qed.

Lemma well_formed_mono (b : list element) (n m : nat) :
  n <= m -> Forall (fun e => el_id e < n) b -> Forall (fun e => el_id e < m) b.
Proof.
  intros L H. eapply Forall_impl; [exact H|]. intros e He. cbn in *. lia.
Qed.

Lemma legacy_body (h : host) (text : jsstring) (p : page) :
  well_formed p -> legacy_quiet h = true ->
  body (snd (legacy h text p)) = body p /\ well_formed (snd (legacy h text p)).
Proof.
  unfold well_formed, legacy_quiet. intros WF Q.
  apply andb_prop in Q as [Q Q4]. apply andb_prop in Q as [Q Q3].
  apply andb_prop in Q as [Q1 Q2].
  apply negb_true_iff in Q1, Q2, Q3, Q4.
  unfold legacy, execCommand_copy, try_catch, bind, host_call, ret, no_effect.
  cbn.
  destruct (throws h createTextarea); cbn; [split; [reflexivity|exact WF]|].
  assert (WF' : Forall (fun e => el_id e < S (next_id p)) (body p))
    by (eapply well_formed_mono; [|exact WF]; lia).
  destruct (throws h appendTextarea); cbn; [split; [reflexivity|exact WF']|].
  rewrite Q1. cbn. rewrite Q2. cbn.
  pose proof (filter_fresh_id (body p)
                {| el_id := next_id p; el_tag := TEXTAREA; el_text := text |} WF)
    as F. cbn in F.
  destruct (has_execCommand h); cbn in Q3 |- *.
  - rewrite Q3. cbn. rewrite Q4. cbn.
    destruct (execCommand_returns h execCommandTextarea); cbn;
      rewrite F; split; (reflexivity || exact WF').
  - rewrite Q4. cbn. rewrite F; split; (reflexivity || exact WF').
Qed.

Lemma manual_body (h : host) (text : jsstring) (p : page) :
  well_formed p -> manual_quiet h = true ->
  body (snd (manual h text p)) = body p.
Proof.
  unfold well_formed, manual_quiet. intros WF Q.
  apply andb_prop in Q as [Q Q6]. apply andb_prop in Q as [Q Q5].
  apply andb_prop in Q as [Q Q4]. apply andb_prop in Q as [Q Q3].
  apply andb_prop in Q as [Q1 Q2].
  apply negb_true_iff in Q1, Q2, Q3, Q4, Q5, Q6.
  unfold manual, execCommand_copy, try_catch, bind, host_call, ret, no_effect.
  cbn.
  destruct (throws h getSelection); cbn; [reflexivity|].
  destruct (throws h createRange); cbn; [reflexivity|].
  destruct (throws h createSpan); cbn; [reflexivity|].
  destruct (throws h appendSpan); cbn; [reflexivity|].
  rewrite Q1. cbn. rewrite Q2. cbn. rewrite Q3. cbn.
  pose proof (filter_fresh_id (body p)
                {| el_id := next_id p; el_tag := SPAN; el_text := text |} WF)
    as F. cbn in F.
  destruct (has_execCommand h); cbn in Q4 |- *.
  - rewrite Q4. cbn. rewrite Q5. cbn. rewrite Q6. cbn.
    destruct (execCommand_returns h execCommandSelection); cbn; exact F.
  - rewrite Q5. cbn. rewrite Q6. cbn. exact F.
Qed.

Lemma primary_body (h : host) (text : jsstring) (p : page) :
  body (snd (primary h text p)) = body p
  /\ next_id (snd (primary h text p)) = next_id p.
Proof.
  unfold primary, try_catch, bind, host_call, ret, no_effect.
  destruct (navigator_defined h && navigator_clipboard h && isSecureContext h);
    [|split; reflexivity].
  cbn. destruct (throws h writeText); split; reflexivity.
Qed.

(** On the paths without an exception between [appendChild] and
    [removeChild] the scaffolding is gone when [safeCopyText] returns: the
    children of [document.body] are those it had before the call. *)
Lemma scaffolding_removed_without_exception
      (h : host) (text : jsstring) (p : page) :
  well_formed p -> legacy_quiet h = true -> manual_quiet h = true ->
  body (snd (safeCopyText h text p)) = body p.
Proof.
  intros WF QL QM. unfold safeCopyText, bind.
  destruct (primary_body h text p) as [B1 N1].
  destruct (primary h text p) as [[[o1|]|] p1]; cbn [snd] in *;
    try exact B1.
  assert (WF1 : well_formed p1).
  { unfold well_formed in *. rewrite B1, N1. exact WF. }
  destruct (legacy_body h text p1 WF1 QL) as [B2 WF2].
  destruct (legacy h text p1) as [[[o2|]|] p2]; unfold ret; cbn [snd] in *;
    try (rewrite B2; exact B1).
  pose proof (manual_body h text p2 WF2 QM) as B3.
  destruct (manual h text p2) as [[[o3|]|] p3]; unfold ret; cbn [snd] in *;
    rewrite B3, B2; exact B1.
Qed.

(** C8.  [safeCopyText] never throws.  It goes through the primary API,
    the legacy command and the manual selection in that order: the primary
    API only when the host offers it, the legacy command only when the
    primary API is not offered or rejects, the manual selection only when
    the legacy command has also failed or thrown.  It returns at the first
    strategy that succeeds, with [ok] true and the [method] of that
    strategy, and with [ok] false and the method ["blocked"] (the
    specification's [none]) when all three have failed or thrown. *)
Theorem fallback_chain (h : host) (text : jsstring) (p : page) :
  let r := safeCopyText h text (fresh p) in
  fst r = Some
    (if primary_succeeds h
     then {| ok := true; method := u16 "navigator.clipboard" |}
     else if legacy_succeeds h
     then {| ok := true; method := u16 "execCommand" |}
     else if manual_succeeds h
     then {| ok := true; method := u16 "selection" |}
     else {| ok := false; method := u16 "blocked" |})
  /\ attempted (trace (snd r)) =
    (if primary_available h then [Primary] else [])
    ++ (if primary_succeeds h then []
        else Legacy :: (if legacy_succeeds h then [] else [Manual]))
  /\ option_map spec_method (fst r) = Some (Some
    (if primary_succeeds h then primary_api
     else if legacy_succeeds h then legacy_command
     else if manual_succeeds h then manual_selection
     else none)).
Proof.
  intros r. subst r.
  destruct (safeCopyText_run h text (fresh p)) as [R C].
  split; [exact R|]. split.
  - unfold trace. rewrite C. cbn [fresh calls].
    rewrite app_nil_r, rev_involutive. apply attempted_expected_trace.
  - rewrite R. unfold expected_outcome.
    destruct (primary_succeeds h), (legacy_succeeds h), (manual_succeeds h);
      reflexivity.
Qed.

(** C9 fails on the exception path.  When [document.execCommand("copy")]
    throws, control leaves each [try] block before its [removeChild]: once
    [safeCopyText] has returned, the textarea and the span it made are
    still children of [document.body], and the range on the span is still
    selected. *)
Theorem scaffolding_left_when_execCommand_throws :
  let r := safeCopyText throwing_host (u16 "x = 1") empty_page in
  fst r = Some {| ok := false; method := u16 "blocked" |}
  /\ body (snd r) =
    [ {| el_id := 0; el_tag := TEXTAREA; el_text := u16 "x = 1" |};
      {| el_id := 1; el_tag := SPAN; el_text := u16 "x = 1" |} ]
  /\ ranges (snd r) = [1]
  /\ trace (snd r) =
    [ createTextarea; appendTextarea; selectTextarea; setSelectionRange;
      execCommandTextarea;
      getSelection; createRange; createSpan; appendSpan; selectNodeContents;
      removeAllRanges1; addRange; execCommandSelection ].
Proof. vm_compute. repeat split; reflexivity. Qed.

End ClipboardFacts.

(* ===================================================================== *)
(** ** Facts about the loader *)
(* ===================================================================== *)

Module LoaderFacts.
Import Js Loader.

Lemma inv_call (b : bool) (n : nat) (w : world) :
  inv b n w ->
  inv b (S n) (fst (loadPyodideOnce w)) /\ snd (loadPyodideOnce w) = 0.
Proof.
  destruct n as [|n]; cbn [inv].
  - intros ->. destruct b; cbn; (split; [|reflexivity]);
      (split; [reflexivity|]); (split; [reflexivity|]);
      eexists; (split; [reflexivity|]); cbn; lia.
  - intros (M & S & pr & P & B). unfold loadPyodideOnce. rewrite M. cbn.
    split; [|reflexivity]. split; [exact M|]. split; [exact S|].
    exists pr. split; [exact P|exact B].
Qed.

Lemma inv_deliver (b : bool) (n : nat) (w : world) (r : nat) (rep : reply) :
  inv b n w -> inv b n (deliver w r rep).
Proof.
  destruct n as [|n]; cbn [inv].
  - intros ->. reflexivity.
  - intros (M & S & pr & P & B). unfold deliver. rewrite P.
    destruct r as [|r]; cbn; [|repeat split; eauto].
    destruct pr as [st| |]; [|repeat split; eauto..].
    destruct st, rep; cbn; try (repeat split; eauto; fail);
      try (split; [exact M|]; split; [exact S|]; eexists;
           (split; [rewrite P; reflexivity|]); cbn; lia).
    unfold call_loadPyodide, script_loaded. cbn.
    destruct (loadPyodide_defined w || defines_loadPyodide); cbn;
      (split; [exact M|]); (split; [exact S|]); eexists;
      (split; [rewrite P; reflexivity|]); cbn; lia.
Qed.

Lemma inv_run (b : bool) (acts : list action) (n : nat) (w : world) :
  inv b n w ->
  inv b (n + count_calls acts) (fst (run_actions w acts))
  /\ Forall (eq 0) (snd (run_actions w acts))
  /\ length (snd (run_actions w acts)) = count_calls acts.
Proof.
  revert n w. induction acts as [|a acts IH]; intros n w I.
  - cbn. rewrite Nat.add_0_r. split; [exact I|]. split; [constructor|reflexivity].
  - destruct a as [|r rep]; cbn [run_actions].
    + destruct (inv_call b n w I) as [I' R].
      destruct (loadPyodideOnce w) as [w' r]. cbn [fst snd] in I', R. subst r.
      destruct (IH (S n) w' I') as (J & F & L).
      destruct (run_actions w' acts) as [w'' rs]. cbn [fst snd] in *.
      unfold count_calls in *. cbn [List.filter is_call length].
      rewrite Nat.add_succ_r. split; [exact J|].
      split; [constructor; [reflexivity|exact F]|]. cbn [length]. lia.
    + apply (IH n (deliver w r rep)). apply inv_deliver. exact I.
Qed.

(** A promise that has settled keeps its state, whatever comes next. *)
Lemma settled_deliver (w : world) (r r' : nat) (rep : reply) (pr : promise) :
  promises w !! r = Some pr -> settled pr = true ->
  promises (deliver w r' rep) !! r = Some pr.
Proof.
  intros P S. unfold deliver.
  destruct (promises w !! r') as [[st| |]|] eqn:P'; try exact P.
  assert (N : r' <> r).
  { intros ->. rewrite P in P'. injection P' as ->. discriminate S. }
  assert (K : forall w' pr', promises w' = promises w ->
              <[r' := pr']> (promises w') !! r = Some pr).
  { intros w' pr' E. rewrite E, list_lookup_insert_ne by exact N. exact P. }
  destruct st, rep; cbn; try (apply K; reflexivity).
  unfold call_loadPyodide, script_loaded. cbn.
  destruct (loadPyodide_defined w || defines_loadPyodide); cbn;
    rewrite list_lookup_insert_ne by exact N; exact P.
Qed.

Lemma settled_call (w : world) (r : nat) (pr : promise) :
  promises w !! r = Some pr ->
  promises (fst (loadPyodideOnce w)) !! r = Some pr.
Proof.
  intros P. unfold loadPyodideOnce.
  destruct (_pyodidePromise w); [exact P|].
  unfold start_init, call_loadPyodide.
  destruct (loadPyodide_defined w); cbn; apply lookup_app_l_Some; exact P.
Qed.

Lemma settled_run (acts : list action) (w : world) (r : nat) (pr : promise) :
  promises w !! r = Some pr -> settled pr = true ->
  promises (fst (run_actions w acts)) !! r = Some pr.
Proof.
  revert w. induction acts as [|a acts IH]; intros w P S; [exact P|].
  destruct a as [|r' rep]; cbn [run_actions].
  - pose proof (settled_call w r pr P) as P'.
    destruct (loadPyodideOnce w) as [w' r0]. cbn [fst] in P'.
    specialize (IH w' P' S).
    destruct (run_actions w' acts) as [w'' rs]. exact IH.
  - apply IH; [|exact S]. apply settled_deliver; assumption.
Qed.

(** C2 as stated fails where the host has [window.loadPyodide] before the
    first call: the guard of line 74 skips the script, and three calls
    start one initialization and no bootstrap fetch at all. *)
Lemma no_fetch_when_preloaded :
  scripts (fst (run_actions (initial true) [Call; Call; Call])) <> 1
  /\ scripts (fst (run_actions (initial true) [Call; Call; Call])) = 0
  /\ length (promises (fst (run_actions (initial true) [Call; Call; Call]))) = 1
  /\ boots (fst (run_actions (initial true) [Call; Call; Call])) = 1.
Proof. vm_compute. repeat split; discriminate. Qed.

(** C2, amended.  Whatever the number of calls of [loadPyodideOnce] and
    whatever the host delivers between them, from the first call on one
    initialization has been started and no other ever is: there is one
    promise, every caller is given that one, the script is appended once
    (not at all when the host had [window.loadPyodide] already),
    [window.loadPyodide] is called at most once, and once the promise has
    settled, with a handle or with a failure, it keeps that state for every
    caller. *)
Theorem single_initialization (preloaded : bool) (acts later : list action) :
  let w := fst (run_actions (initial preloaded) acts) in
  let refs := snd (run_actions (initial preloaded) acts) in
  let n := count_calls acts in
  length refs = n
  /\ Forall (eq 0) refs
  /\ length (promises w) = (if Nat.eqb n 0 then 0 else 1)
  /\ scripts w = (if preloaded || Nat.eqb n 0 then 0 else 1)
  /\ boots w <= 1
  /\ match promises w !! 0 with
     | Some pr =>
         if settled pr
         then promises (fst (run_actions w later)) !! 0 = Some pr
         else True
     | None => True
     end.
Proof.
  intros w refs n. subst w refs n.
  destruct (inv_run preloaded acts 0 (initial preloaded) eq_refl)
    as (I & F & L).
  cbn [Nat.add] in I.
  split; [exact L|]. split; [exact F|].
  destruct (run_actions (initial preloaded) acts) as [w refs]. cbn [fst snd] in *.
  assert (T : length (promises w) = (if Nat.eqb (count_calls acts) 0 then 0 else 1)
              /\ scripts w = (if preloaded || Nat.eqb (count_calls acts) 0 then 0 else 1)
              /\ boots w <= 1).
  { destruct (count_calls acts) as [|k]; cbn [inv Nat.eqb] in *.
    - subst w. rewrite orb_true_r. cbn. lia.
    - destruct I as (_ & S & pr & P & B). rewrite P, S, orb_false_r.
      split; [reflexivity|]. split; [reflexivity|].
      destruct pr as [[| | | |]| |]; lia. }
  destruct T as (T1 & T2 & T3). repeat (split; [assumption|]).
  destruct (promises w !! 0) as [pr|] eqn:P; [|exact Logic.I].
  destruct (settled pr) eqn:S; [|exact Logic.I].
  apply settled_run; assumption.
Qed.

End LoaderFacts.

(* ===================================================================== *)
(** ** Facts about the runner *)
(* ===================================================================== *)

Module RunnerFacts.
Import Js Loader Runner.

Lemma run_unfold (replies : list reply) (rt : runtime) (code : jsstring)
      (s : state) :
  snd (run replies rt code s) =
  match snd (ensureReady replies s) with
  | Throws e => Throws e
  | Suspended => Suspended
  | Returns py =>
      match rt py (program code) with
      | PyReturns out =>
          Returns {| images := Parser.images (Parser.parse_output (String_ out));
                     text := Parser.text (Parser.parse_output (String_ out));
                     error := None |}
      | PyRaises e =>
          Returns {| images := []; text := []; error := Some (message_of e) |}
      | PyHangs => Suspended
      end
  end.
Proof.
  unfold run. destruct (ensureReady replies s) as [s1 [py|e|]]; cbn [snd];
    try reflexivity.
  destruct (rt py (program code)); reflexivity.
Qed.

Lemma ensureReady_throws (replies : list reply) (s : state) (e : value) :
  snd (ensureReady replies s) = Throws e <->
  pyRef s = None
  /\ promises (await_load (fst (loadPyodideOnce (loader s)))
                          (snd (loadPyodideOnce (loader s))) replies)
       !! snd (loadPyodideOnce (loader s)) = Some (Rejected e).
Proof.
  unfold ensureReady. destruct (pyRef s) as [py|]; cbn [snd].
  - split; [discriminate|intros [H _]; discriminate H].
  - destruct (loadPyodideOnce (loader s)) as [w1 r]. cbn [fst snd].
    destruct (promises (await_load w1 r replies) !! r) as [[st|py|e']|];
      cbn [snd]; split; try discriminate; try (intros [_ H]; discriminate H).
    + intros H. injection H as ->. split; reflexivity.
    + intros [_ H]. injection H as ->. reflexivity.
Qed.

(** The text kept of an exception is never empty when the exception is an
    error object with a name. *)
Lemma message_of_named_error (n m : jsstring) :
  n <> [] -> message_of (VError n m) <> [].
Proof.
  intros N. unfold message_of, or_else, optional_message, truthy, truthy_length.
  destruct m as [|c m]; cbn.
  - destruct n; [contradiction|discriminate].
  - discriminate.
Qed.

Lemma exec_guest_raises (pre post : list guest_action) (m : jsstring)
      (buffer : jsstring) :
  forallb (fun a => negb (is_raise a)) pre = true ->
  exec_guest buffer (pre ++ Raise m :: post) =
  PyRaises (VError (u16 "PythonError") m).
Proof.
  revert buffer. induction pre as [|a pre IH]; intros buffer H; [reflexivity|].
  cbn in H. apply andb_prop in H as [Ha H].
  destruct a; cbn; try apply IH; try exact H. discriminate Ha.
Qed.

Lemma await_load_as_actions (replies : list reply) (w : world) (r : nat) :
  await_load w r replies = fst (run_actions w (map (Deliver r) replies)).
Proof.
  revert w. unfold await_load.
  induction replies as [|rep replies IH]; intros w; [reflexivity|].
  cbn [fold_left map run_actions]. apply IH.
Qed.

(** What one call of [ensureReady] does to the loader: nothing when the
    hook has its runtime, else one call of [loadPyodideOnce] followed by the
    replies of the host.  Calls of [ensureReady] from any number of hooks
    are thus lists of events of the loader, to which
    [LoaderFacts.inv_run] applies. *)
Lemma ensureReady_as_actions (replies : list reply) (s : state) :
  loader (fst (ensureReady replies s)) =
  fst (run_actions (loader s)
         (match pyRef s with
          | Some _ => []
          | None => Call :: map (Deliver (snd (loadPyodideOnce (loader s))))
                                replies
          end)).
Proof.
  unfold ensureReady. destruct (pyRef s); [reflexivity|].
  cbn [run_actions].
  destruct (loadPyodideOnce (loader s)) as [w1 r]. cbn [snd].
  rewrite (await_load_as_actions replies w1 r).
  destruct (run_actions w1 (map (Deliver r) replies)) as [w2 rs]. cbn [fst].
  destruct (promises w2 !! r) as [[st|py|e]|]; reflexivity.
Qed.

(** C1 as stated fails: line 128 awaits [ensureReady] outside the [try],
    and [ensureReady] throws again what the load was rejected with (line
    122).  On a page where the script cannot be fetched, [run] throws the
    event of the failed load to its caller. *)
Lemma run_throws_when_load_fails :
  snd (run [ScriptOnerror load_error] silent_runtime (u16 "print(1)")
           (fresh_state false)) = Throws load_error.
Proof. vm_compute. reflexivity. Qed.

(** C1, amended.  [run] throws to its caller exactly when [ensureReady]
    does, that is when the hook has no runtime yet and the load is
    rejected; it throws what the load was rejected with, after [status]
    and [errMsg] have recorded the failure.  Once [ensureReady] has
    returned a runtime, [run] does not throw: an exception of the guest
    execution comes back as the [error] of the result. *)
Theorem run_throws_exactly_load_failures
        (replies : list reply) (rt : runtime) (code : jsstring) (s : state) :
  (forall e, snd (run replies rt code s) = Throws e <->
             snd (ensureReady replies s) = Throws e)
  /\ (forall e, snd (run replies rt code s) = Throws e <->
        pyRef s = None
        /\ promises (await_load (fst (loadPyodideOnce (loader s)))
                                (snd (loadPyodideOnce (loader s))) replies)
             !! snd (loadPyodideOnce (loader s)) = Some (Rejected e))
  /\ match snd (ensureReady replies s) with
     | Throws e =>
         status (fst (run replies rt code s)) = st_error
         /\ errMsg (fst (run replies rt code s)) = message_of e
     | Returns py =>
         match rt py (program code) with
         | PyRaises e =>
             snd (run replies rt code s) =
             Returns {| images := []; text := [];
                        error := Some (message_of e) |}
         | PyReturns _ =>
             exists r, snd (run replies rt code s) = Returns r
                       /\ error r = None
         | PyHangs => snd (run replies rt code s) = Suspended
         end
     | Suspended => snd (run replies rt code s) = Suspended
     end.
Proof.
  assert (A : forall e, snd (run replies rt code s) = Throws e <->
                        snd (ensureReady replies s) = Throws e).
  { intros e. rewrite run_unfold.
    destruct (snd (ensureReady replies s)) as [py|e'|].
    - destruct (rt py (program code)); split; discriminate.
    - split; intros H; injection H as ->; reflexivity.
    - split; discriminate. }
  split; [exact A|]. split.
  - intros e. rewrite A. apply ensureReady_throws.
  - rewrite run_unfold.
    destruct (snd (ensureReady replies s)) as [py|e|] eqn:E; [| |reflexivity].
    + destruct (rt py (program code)); try reflexivity.
      eexists. split; reflexivity.
    + unfold run. unfold ensureReady in *.
      destruct (pyRef s); [discriminate E|].
      destruct (loadPyodideOnce (loader s)) as [w1 r].
      destruct (promises (await_load w1 r replies) !! r) as [[st|py|e']|];
        cbn in E |- *; try discriminate E.
      injection E as ->. split; reflexivity.
Qed.

(** C4.  When the runtime is ready and the execution of the program
    raises, [run] returns a result with no image, an empty text, and the
    message of the exception as [error]: [e.message] when the exception has
    one, what [String(e)] gives otherwise.  [errMsg] holds the same message
    and [status] is error. *)
Theorem guest_exception_gives_empty_result
        (replies : list reply) (rt : runtime) (code : jsstring) (s : state)
        (py : handle) (e : value) :
  snd (ensureReady replies s) = Returns py ->
  rt py (program code) = PyRaises e ->
  snd (run replies rt code s) =
    Returns {| images := []; text := []; error := Some (message_of e) |}
  /\ status (fst (run replies rt code s)) = st_error
  /\ errMsg (fst (run replies rt code s)) = message_of e
  /\ match e with
     | VError _ (c :: m) => message_of e = c :: m
     | _ => message_of e = String_ e
     end.
Proof.
  intros R G. split; [rewrite run_unfold, R, G; reflexivity|].
  unfold run. destruct (ensureReady replies s) as [s1 c]. cbn [snd] in R.
  subst c. rewrite G. cbn [fst status errMsg].
  split; [reflexivity|]. split; [reflexivity|].
  destruct e as [| |str|n m|shown]; try reflexivity.
  destruct m; reflexivity.
Qed.

Lemma guest_exception_gives_empty_result_witness :
  snd (run good_replies partial_runtime (u16 "raise ValueError('boom')")
           (fresh_state false)) =
    Returns {| images := []; text := [];
               error := Some (u16 "ValueError: boom") |}.
Proof.
  refine (proj1 (guest_exception_gives_empty_result
                   good_replies partial_runtime (u16 "raise ValueError('boom')")
                   (fresh_state false) 7
                   (VError (u16 "PythonError") (u16 "ValueError: boom")) _ _));
    vm_compute; reflexivity.
Defined.

(** C3 as stated fails: the guest prints partial and raises; the text of
    the result is empty and does not hold what was printed. *)
Lemma partial_output_discarded :
  snd (run good_replies partial_runtime
           (u16 "print('partial'); raise ValueError('boom')")
           (fresh_state false)) =
    Returns {| images := []; text := [];
               error := Some (u16 "ValueError: boom") |}
  /\ includes [] (u16 "partial") = false
  /\ instrumented partial_guest =
       PyRaises (VError (u16 "PythonError") (u16 "ValueError: boom")).
Proof. vm_compute. repeat split; reflexivity. Qed.

(** C3, amended.  When the guest prints or shows figures and then raises,
    [run] returns a result whose text is empty and whose images are empty:
    what was printed before the failure stays in the buffer on the Python
    side and is not returned; the [error] of the result is not empty. *)
Theorem raising_guest_loses_partial_output
        (replies : list reply) (rt : runtime) (code : jsstring) (s : state)
        (py : handle) (pre post : list guest_action) (m : jsstring) :
  snd (ensureReady replies s) = Returns py ->
  forallb (fun a => negb (is_raise a)) pre = true ->
  rt py (program code) = instrumented (pre ++ Raise m :: post) ->
  exists err,
    snd (run replies rt code s) =
      Returns {| images := []; text := []; error := Some err |}
    /\ err <> []
    /\ err = message_of (VError (u16 "PythonError") m).
Proof.
  intros R P G. unfold instrumented in G. rewrite exec_guest_raises in G by exact P.
  eexists. split; [rewrite run_unfold, R, G; reflexivity|].
  split; [|reflexivity]. apply message_of_named_error. discriminate.
Qed.

Lemma raising_guest_loses_partial_output_witness :
  exists err,
    snd (run good_replies partial_runtime
             (u16 "print('partial'); raise ValueError('boom')")
             (fresh_state false)) =
      Returns {| images := []; text := []; error := Some err |}
    /\ err <> []
    /\ err = message_of (VError (u16 "PythonError") (u16 "ValueError: boom")).
Proof.
  refine (raising_guest_loses_partial_output
            good_replies partial_runtime
            (u16 "print('partial'); raise ValueError('boom')")
            (fresh_state false) 7 [Print (u16 "partial")] []
            (u16 "ValueError: boom") _ _ _); vm_compute; reflexivity.
Defined.

(** C5 as stated fails: after a failed load, a later [ensureReady] to
    which the host would answer with a working runtime makes no new load.
    It throws the failure of the first load again; no new script is
    appended and no new promise is made.  On a fresh page the same replies
    give the runtime. *)
Lemma no_retry_after_failed_load :
  snd (ensureReady good_replies failed_state) = Throws load_error
  /\ loader (fst (ensureReady good_replies failed_state)) = loader failed_state
  /\ scripts (loader (fst (ensureReady good_replies failed_state))) = 1
  /\ length (promises (loader (fst (ensureReady good_replies failed_state)))) = 1
  /\ snd (ensureReady good_replies (fresh_state false)) = Returns 7.
Proof. vm_compute. repeat split; reflexivity. Qed.

Lemma await_load_rejected (replies : list reply) (w : world) (r : nat)
      (e : value) :
  promises w !! r = Some (Rejected e) -> await_load w r replies = w.
Proof.
  intros P. unfold await_load. induction replies as [|rep replies IH];
    [reflexivity|].
  cbn [fold_left]. unfold deliver at 2. rewrite P. exact IH.
Qed.

(** C5, amended.  Once the load has been rejected, [_pyodidePromise] keeps
    the rejected promise: a later [ensureReady] of a hook without runtime
    starts no load, whatever the host would answer; it leaves the loader as
    it is, sets [status] to error and [errMsg] to the message of the first
    failure, and throws that failure again. *)
Theorem failed_load_is_kept
        (replies : list reply) (s : state) (r : nat) (e : value) :
  pyRef s = None ->
  _pyodidePromise (loader s) = Some r ->
  promises (loader s) !! r = Some (Rejected e) ->
  ensureReady replies s =
    ({| loader := loader s; status := st_error; errMsg := message_of e;
        pyRef := None |}, Throws e).
Proof.
  intros R M P. unfold ensureReady, loadPyodideOnce. rewrite R, M.
  rewrite (await_load_rejected replies _ _ _ P), P. reflexivity.
Qed.

Lemma failed_load_is_kept_witness :
  ensureReady good_replies failed_state =
    ({| loader := loader failed_state; status := st_error;
        errMsg := message_of load_error; pyRef := None |}, Throws load_error).
Proof.
  refine (failed_load_is_kept good_replies failed_state 0 load_error _ _ _);
    vm_compute; reflexivity.
Defined.

End RunnerFacts.

(* ===================================================================== *)
(** ** Laws of the parser *)
(* ===================================================================== *)

Module ParserLaws.
Import Js Parser ParserFacts.

Lemma startsWith_nil (s : jsstring) : startsWith s [] = true.
Proof. destruct s; reflexivity. Qed.

Lemma startsWith_prefix (pat s : jsstring) : startsWith (pat ++ s) pat = true.
Proof.
  induction pat as [|p pat IH]; cbn [app]; [apply startsWith_nil|].
  cbn [startsWith]. rewrite N.eqb_refl. exact IH.
Qed.

Lemma split_nl_cons (s : jsstring) : exists l ls, split_nl s = l :: ls.
Proof.
  induction s as [|c s (l & ls & E)]; cbn; [eauto|].
  destruct (N.eqb c LF); [eauto|]. rewrite E. eauto.
Qed.

(** Splitting at a line feed: the pieces of the left part, then the pieces
    of the right part. *)
Lemma split_nl_app (s1 s2 : jsstring) :
  split_nl (s1 ++ LF :: s2) = split_nl s1 ++ split_nl s2.
Proof.
  induction s1 as [|c s1 IH]; cbn [app split_nl].
  - rewrite N.eqb_refl. reflexivity.
  - destruct (N.eqb c LF); rewrite IH; [reflexivity|].
    destruct (split_nl_cons s1) as (l & ls & E). rewrite E. reflexivity.
Qed.

Lemma split_nl_one_line (l : jsstring) :
  Guest.one_line l = true -> split_nl l = [l].
Proof.
  unfold Guest.one_line.
  induction l as [|c l IH]; cbn; [reflexivity|].
  intros H. apply andb_prop in H as [Hc Hl].
  apply negb_true_iff in Hc. rewrite Hc, (IH Hl). reflexivity.
Qed.

(** The pieces [split(/\n/)] gives hold no line feed. *)
Lemma split_nl_pieces (s : jsstring) :
  Forall (fun l => Guest.one_line l = true) (split_nl s).
Proof.
  unfold Guest.one_line.
  induction s as [|c s IH]; cbn [split_nl]; [repeat constructor|].
  destruct (N.eqb c LF) eqn:E; [constructor; [reflexivity|exact IH]|].
  destruct (split_nl s) as [|l ls]; [repeat constructor; cbn; now rewrite E|].
  inversion IH as [|? ? Hl Hls]; subst. constructor; [|exact Hls].
  cbn. rewrite E, Hl. reflexivity.
Qed.

(** Lines written one after the other, each ended by a line feed, split
    into these lines and a last empty piece. *)
Lemma split_nl_written (ls : list jsstring) :
  Forall (fun l => Guest.one_line l = true) ls ->
  split_nl (concat (map (fun l => l ++ [LF]) ls)) = ls ++ [[]].
Proof.
  induction 1 as [|l ls Hl Hls IH]; [reflexivity|].
  cbn [map concat]. rewrite <- app_assoc. cbn [app].
  rewrite split_nl_app, IH, (split_nl_one_line l Hl). reflexivity.
Qed.

Lemma parse_lines_app (l1 l2 : list jsstring) :
  parse_lines (l1 ++ l2) =
  {| images := images (parse_lines l1) ++ images (parse_lines l2);
     text := text (parse_lines l1) ++ text (parse_lines l2) |}.
Proof.
  rewrite !parse_lines_images, !parse_lines_text.
  unfold parse_lines. rewrite fold_parse_line. cbn [images text app].
  rewrite !map_app, !concat_app. reflexivity.
Qed.

(** X1.  The parser keeps nothing from one line to the next: a raw output
    made of two parts joined by a line feed gives the images of the first
    part followed by those of the second, and the text of the first part
    followed by that of the second. *)
Theorem parse_output_line_feed (raw1 raw2 : jsstring) :
  parse_output (raw1 ++ LF :: raw2) =
  {| images := images (parse_output raw1) ++ images (parse_output raw2);
     text := text (parse_output raw1) ++ text (parse_output raw2) |}.
Proof. unfold parse_output. rewrite split_nl_app. apply parse_lines_app. Qed.

Lemma is_text_line_not_blank (l : jsstring) :
  is_text_line l = negb (is_image_line l) && negb (is_blank l).
Proof. unfold is_text_line, is_image_line. rewrite trim_length_blank. reflexivity. Qed.

Lemma filter_text_lines_kept (ls : list jsstring) :
  Forall (fun l => is_text_line l = true) (List.filter is_text_line ls).
Proof.
  induction ls as [|l ls IH]; cbn; [constructor|].
  destruct (is_text_line l) eqn:E; [constructor; assumption|exact IH].
Qed.

Lemma parse_text_lines (ls : list jsstring) :
  Forall (fun l => is_text_line l = true) ls ->
  parse_lines (ls ++ [[]]) =
  {| images := []; text := concat (map (fun l => l ++ [LF]) ls) |}.
Proof.
  intros H. rewrite parse_lines_app.
  assert (I : images (parse_lines ls) = []
              /\ text (parse_lines ls) = concat (map (fun l => l ++ [LF]) ls)).
  { rewrite parse_lines_images, parse_lines_text.
    induction H as [|l ls Hl Hls [IH1 IH2]]; [split; reflexivity|].
    cbn [map concat]. rewrite IH1, IH2.
    rewrite is_text_line_not_blank in Hl. apply andb_prop in Hl as [Hi Hb].
    apply negb_true_iff in Hi, Hb.
    unfold line_images, line_text. rewrite Hi, Hb. split; reflexivity. }
  destruct I as [-> ->]. cbn. rewrite app_nil_r. reflexivity.
Qed.

Lemma Forall_filter_bool {A} (P : A -> Prop) (f : A -> bool) (l : list A) :
  Forall P l -> Forall P (List.filter f l).
Proof.
  induction 1 as [|x l Hx Hl IH]; cbn; [constructor|].
  destruct (f x); [constructor; assumption|exact IH].
Qed.

Lemma text_kept_lines (raw : jsstring) :
  text (parse_output raw) =
  concat (map (fun l => l ++ [LF]) (List.filter is_text_line (split_nl raw))).
Proof.
  unfold parse_output. rewrite parse_lines_text.
  apply concat_line_text_keep. intros l.
  rewrite is_text_line_not_blank. unfold line_text.
  destruct (is_image_line l), (is_blank l); reflexivity.
Qed.

(** X2.  The text [run] returns holds the kept lines and nothing else:
    split again at the line feeds it gives back exactly the lines of the
    raw output that were kept, followed by one empty piece; no line of it
    begins with the sentinel, and parsing it again changes nothing. *)
Theorem text_splits_into_kept_lines (raw : jsstring) :
  split_nl (text (parse_output raw)) =
    List.filter is_text_line (split_nl raw) ++ [[]]
  /\ forallb (fun l => negb (startsWith l sentinel))
             (split_nl (text (parse_output raw))) = true
  /\ parse_output (text (parse_output raw)) =
    {| images := []; text := text (parse_output raw) |}.
Proof.
  pose proof (text_kept_lines raw) as T.
  assert (S : split_nl (text (parse_output raw)) =
              List.filter is_text_line (split_nl raw) ++ [[]]).
  { rewrite T. apply split_nl_written, Forall_filter_bool, split_nl_pieces. }
  split; [exact S|]. split.
  - rewrite S, forallb_app. cbn. rewrite andb_true_r.
    apply forallb_forall. intros l Hl. apply filter_In in Hl as [_ Hl].
    unfold is_text_line in Hl. apply andb_prop in Hl as [Hl _]. exact Hl.
  - unfold parse_output at 1. rewrite S.
    rewrite (parse_text_lines _ (filter_text_lines_kept _)), <- T.
    reflexivity.
Qed.

Lemma is_blank_app (l1 l2 : jsstring) :
  is_blank (l1 ++ l2) = is_blank l1 && is_blank l2.
Proof. apply forallb_app. Qed.

Lemma kept_lines_not_blank (ls : list jsstring) :
  Forall (fun l => is_text_line l = true) ls ->
  is_blank (concat (map (fun l => l ++ [LF]) ls)) =
  match ls with [] => true | _ :: _ => false end.
Proof.
  destruct 1 as [|l ls Hl Hls]; [reflexivity|].
  cbn [map concat]. rewrite !is_blank_app.
  rewrite is_text_line_not_blank in Hl. apply andb_prop in Hl as [_ Hb].
  apply negb_true_iff in Hb. rewrite Hb. reflexivity.
Qed.

Lemma existsb_filter {A} (f : A -> bool) (l : list A) :
  existsb f l = match List.filter f l with [] => false | _ :: _ => true end.
Proof.
  induction l as [|x l IH]; cbn; [reflexivity|].
  destruct (f x); [reflexivity|exact IH].
Qed.

(** X3.  The condition under which a code block displays the text of a
    result, [out.text?.trim()?.length] (line 350), holds exactly when the
    text is not empty, that is when one line of the raw output was kept: a
    text that is not empty is never made of white space only. *)
Theorem text_displayed_iff_line_kept (raw : jsstring) :
  truthy_length (length (trim (text (parse_output raw)))) =
    existsb is_text_line (split_nl raw)
  /\ truthy_length (length (trim (text (parse_output raw)))) =
    truthy_length (length (text (parse_output raw))).
Proof.
  rewrite trim_length_blank, text_kept_lines, existsb_filter.
  rewrite (kept_lines_not_blank _ (filter_text_lines_kept (split_nl raw))).
  destruct (List.filter is_text_line (split_nl raw)) as [|l ls];
    [split; reflexivity|].
  split; [reflexivity|]. cbn [map concat]. rewrite !length_app. cbn.
  unfold truthy_length. destruct (length l + 1 + _) eqn:E; [lia|reflexivity].
Qed.

End ParserLaws.

(* ===================================================================== *)
(** ** Laws of the runner *)
(* ===================================================================== *)

Module RunnerLaws.
Import Js Loader Runner RunnerFacts.

Lemma exec_guest_plain (acts : list guest_action) (buffer : jsstring) :
  forallb Guest.plain acts = true ->
  exec_guest buffer acts =
  PyReturns (VString (buffer ++ concat (map (fun a => Guest.written a ++ [LF])
                                            acts))).
Proof.
  revert buffer. induction acts as [|a acts IH]; intros buffer H.
  - cbn. rewrite app_nil_r. reflexivity.
  - cbn [forallb] in H. apply andb_prop in H as [Ha H].
    destruct a as [s|b64|m]; [| |discriminate Ha]; cbn [exec_guest];
      rewrite (IH _ H); cbn [map concat Guest.written];
      rewrite <- !app_assoc; reflexivity.
Qed.

Lemma written_one_line (acts : list guest_action) :
  forallb Guest.plain acts = true ->
  Forall (fun l => Guest.one_line l = true) (map Guest.written acts).
Proof.
  induction acts as [|a acts IH]; cbn [forallb map]; [constructor|].
  intros H. apply andb_prop in H as [Ha H]. constructor; [|exact (IH H)].
  destruct a as [s|b64|m]; cbn in Ha |- *.
  - apply andb_prop in Ha as [Ha _]. exact Ha.
  - exact Ha.
  - discriminate Ha.
Qed.

Lemma plain_lines_images (acts : list guest_action) :
  forallb Guest.plain acts = true ->
  concat (map Parser.line_images (map Guest.written acts)) =
  map Parser.data_url (Guest.shown acts).
Proof.
  induction acts as [|a acts IH]; cbn [forallb map concat Guest.shown];
    [reflexivity|].
  intros H. apply andb_prop in H as [Ha H]. rewrite (IH H).
  destruct a as [s|b64|m]; cbn [Guest.plain Guest.written] in Ha |- *.
  - apply andb_prop in Ha as [_ Ha]. apply negb_true_iff in Ha.
    unfold Parser.line_images, Parser.is_image_line. rewrite Ha. reflexivity.
  - unfold Parser.line_images, Parser.is_image_line.
    rewrite ParserLaws.startsWith_prefix, drop_app_length. reflexivity.
  - discriminate Ha.
Qed.

Lemma plain_lines_text (acts : list guest_action) :
  forallb Guest.plain acts = true ->
  concat (map Parser.line_text (map Guest.written acts)) =
  concat (map (fun l => l ++ [LF])
              (List.filter (fun l => negb (Parser.is_blank l))
                           (Guest.printed acts))).
Proof.
  induction acts as [|a acts IH]; cbn [forallb map concat Guest.printed];
    [reflexivity|].
  intros H. apply andb_prop in H as [Ha H]. rewrite (IH H).
  destruct a as [s|b64|m]; cbn [Guest.plain Guest.written] in Ha |- *.
  - apply andb_prop in Ha as [_ Ha]. apply negb_true_iff in Ha.
    unfold Parser.line_text, Parser.is_image_line. rewrite Ha.
    cbn [List.filter]. destruct (Parser.is_blank s); reflexivity.
  - unfold Parser.line_text, Parser.is_image_line.
    rewrite ParserLaws.startsWith_prefix. reflexivity.
  - discriminate Ha.
Qed.

(** X4.  From the guest to the result.  When the code prints lines and
    shows figures without raising (no printed line beginning with the
    sentinel, no line feed inside a line or an image), [run] returns the
    images shown, in the order they were shown, each as a PNG data URL, and
    as text the printed lines that are not blank, in the order they were
    printed, each followed by a line feed; there is no [error]. *)
Theorem plain_guest_round_trip
        (replies : list reply) (rt : runtime) (code : jsstring) (s : state)
        (py : handle) (acts : list guest_action) :
  snd (ensureReady replies s) = Returns py ->
  forallb Guest.plain acts = true ->
  rt py (program code) = instrumented acts ->
  snd (run replies rt code s) =
    Returns {| images := map Parser.data_url (Guest.shown acts);
               text := concat (map (fun l => l ++ [LF])
                                   (List.filter
                                      (fun l => negb (Parser.is_blank l))
                                      (Guest.printed acts)));
               error := None |}.
Proof.
  intros R P G. rewrite run_unfold, R, G. unfold instrumented.
  rewrite (exec_guest_plain _ _ P). cbn [app String_].
  unfold Parser.parse_output.
  assert (E : concat (map (fun a => Guest.written a ++ [LF]) acts) =
              concat (map (fun l => l ++ [LF]) (map Guest.written acts)))
    by (rewrite map_map; reflexivity).
  rewrite E.
  rewrite (ParserLaws.split_nl_written _ (written_one_line _ P)).
  rewrite ParserLaws.parse_lines_app. cbn [Parser.images Parser.text].
  rewrite ParserFacts.parse_lines_images, ParserFacts.parse_lines_text.
  rewrite (plain_lines_images _ P), (plain_lines_text _ P).
  cbn. rewrite !app_nil_r. reflexivity.
Qed.

Lemma plain_guest_round_trip_witness :
  snd (run good_replies
           (fun _ _ => instrumented [Print (u16 "a"); Show (u16 "QUJD");
                                     Print []; Print (u16 "b")])
           (u16 "print('a'); plt.show(); print(); print('b')")
           (fresh_state false)) =
    Returns {| images := [u16 "data:image/png;base64,QUJD"];
               text := u16 "a
b
";
               error := None |}.
Proof.
  refine (plain_guest_round_trip good_replies _ _ (fresh_state false) 7
            [Print (u16 "a"); Show (u16 "QUJD"); Print []; Print (u16 "b")]
            _ _ _); vm_compute; reflexivity.
Defined.

(** X5.  A hook that holds its runtime: [run] makes no use of the loader,
    does not throw, and what it returns and leaves in [status] and
    [errMsg] depends on the execution only, not on the replies of the host
    nor on what the hook showed before; an error of an earlier run does not
    stay. *)
Theorem ready_hook_run
        (replies replies' : list reply) (rt : runtime) (code : jsstring)
        (s s' : state) (py : handle) :
  pyRef s = Some py -> pyRef s' = Some py -> loader s' = loader s ->
  run replies rt code s = run replies' rt code s'
  /\ loader (fst (run replies rt code s)) = loader s
  /\ pyRef (fst (run replies rt code s)) = Some py
  /\ (forall e, snd (run replies rt code s) <> Throws e).
Proof.
  intros P P' L. unfold run, ensureReady. rewrite P, P', L.
  destruct (rt py (program code)); cbn; rewrite ?P, ?P';
    repeat split; try reflexivity; intros e' H; discriminate H.
Qed.

Lemma ready_hook_run_witness :
  run [] silent_runtime (u16 "x = 1")
      (fst (run good_replies partial_runtime (u16 "raise ValueError('boom')")
                (fresh_state false))) =
  run good_replies silent_runtime (u16 "x = 1")
      (fst (ensureReady good_replies (fresh_state false))).
Proof.
  refine (proj1 (ready_hook_run [] good_replies silent_runtime (u16 "x = 1")
                   _ _ 7 _ _ _)); vm_compute; reflexivity.
Defined.

(** X6.  [ensureReady] keeps what it has got: once it has returned a
    runtime, every later call on the same hook returns that runtime at
    once, whatever the host would reply, and changes nothing. *)
Theorem ensureReady_keeps_runtime
        (replies replies' : list reply) (s : state) (py : handle) :
  snd (ensureReady replies s) = Returns py ->
  ensureReady replies' (fst (ensureReady replies s)) =
    (fst (ensureReady replies s), Returns py).
Proof.
  unfold ensureReady at 1 3 4. destruct (pyRef s) as [py0|] eqn:P.
  - cbn. intros H. injection H as ->. unfold ensureReady. rewrite P.
    reflexivity.
  - destruct (loadPyodideOnce (loader s)) as [w1 r].
    destruct (promises (await_load w1 r replies) !! r) as [[st|py'|e]|];
      cbn; intros H; try discriminate H.
    injection H as ->. reflexivity.
Qed.

Lemma ensureReady_keeps_runtime_witness :
  ensureReady [ScriptOnerror load_error]
              (fst (ensureReady good_replies (fresh_state false))) =
    (fst (ensureReady good_replies (fresh_state false)), Returns 7).
Proof.
  refine (ensureReady_keeps_runtime good_replies _ (fresh_state false) 7 _).
  vm_compute. reflexivity.
Defined.

Lemma loadPyodideOnce_memo (w : world) :
  _pyodidePromise (fst (loadPyodideOnce w)) = Some (snd (loadPyodideOnce w)).
Proof.
  unfold loadPyodideOnce. destruct (_pyodidePromise w) eqn:M; [exact M|].
  destruct (start_init w). reflexivity.
Qed.

Lemma deliver_memo (w : world) (r : nat) (rep : reply) :
  _pyodidePromise (deliver w r rep) = _pyodidePromise w.
Proof.
  unfold deliver. destruct (promises w !! r) as [[st| |]|]; try reflexivity.
  destruct st, rep; try reflexivity.
  unfold resume, call_loadPyodide, script_loaded. cbn.
  destruct (loadPyodide_defined w || defines_loadPyodide); reflexivity.
Qed.

Lemma await_load_memo (replies : list reply) (w : world) (r : nat) :
  _pyodidePromise (await_load w r replies) = _pyodidePromise w.
Proof.
  revert w. unfold await_load.
  induction replies as [|rep replies IH]; intros w; [reflexivity|].
  cbn [fold_left]. rewrite IH. apply deliver_memo.
Qed.

Lemma await_load_fulfilled (replies : list reply) (w : world) (r : nat)
      (py : handle) :
  promises w !! r = Some (Fulfilled py) -> await_load w r replies = w.
Proof.
  intros P. unfold await_load. induction replies as [|rep replies IH];
    [reflexivity|].
  cbn [fold_left]. unfold deliver at 2. rewrite P. exact IH.
Qed.

(** X7.  The runtime is shared by the hooks of the page: once one hook has
    loaded it, another hook that has none yet is given the same runtime by
    [ensureReady], whatever the host would reply, and no load is started
    for it (the loader stays as it is). *)
Theorem loaded_runtime_is_shared
        (replies replies' : list reply) (s other : state) (py : handle) :
  pyRef s = None ->
  snd (ensureReady replies s) = Returns py ->
  pyRef other = None ->
  loader other = loader (fst (ensureReady replies s)) ->
  snd (ensureReady replies' other) = Returns py
  /\ loader (fst (ensureReady replies' other)) = loader other.
Proof.
  intros P R PO L.
  assert (K : exists r, _pyodidePromise (loader other) = Some r
                        /\ promises (loader other) !! r = Some (Fulfilled py)).
  { rewrite L. unfold ensureReady in R |- *. rewrite P in R |- *.
    pose proof (loadPyodideOnce_memo (loader s)) as M.
    destruct (loadPyodideOnce (loader s)) as [w1 r]. cbn [fst snd] in M.
    exists r.
    pose proof (await_load_memo replies w1 r) as M'. rewrite M in M'.
    destruct (promises (await_load w1 r replies) !! r) as [[st|py'|e]|] eqn:E;
      cbn in R |- *; try discriminate R.
    injection R as ->. split; [exact M'|exact E]. }
  destruct K as (r & M & F).
  unfold ensureReady, loadPyodideOnce. rewrite PO, M.
  rewrite (await_load_fulfilled replies' _ _ _ F), F. split; reflexivity.
Qed.

Lemma loaded_runtime_is_shared_witness :
  snd (ensureReady []
         {| loader := loader (fst (ensureReady good_replies (fresh_state false)));
            status := st_idle; errMsg := []; pyRef := None |}) = Returns 7.
Proof.
  refine (proj1 (loaded_runtime_is_shared good_replies [] (fresh_state false)
                   _ 7 _ _ _ _)); vm_compute; reflexivity.
Defined.

Ltac finish :=
  first [reflexivity | discriminate | (left; reflexivity) | (right; reflexivity)
        | (intros; discriminate)].

(** X18.  Calling [ensureReady] again joins the load in flight: a call made
    after an earlier call that got the replies [first], and that itself
    gets the replies [second], ends as one call that gets both; the second
    call starts nothing of its own, whether the first call is still
    waiting, has failed or has returned. *)
Theorem ensureReady_joins (first second : list reply) (s : state) :
  ensureReady second (fst (ensureReady first s)) =
  ensureReady (first ++ second) s.
Proof.
  unfold ensureReady at 2 3. destruct (pyRef s) as [py|] eqn:P.
  - cbn [fst]. unfold ensureReady. rewrite P. reflexivity.
  - pose proof (loadPyodideOnce_memo (loader s)) as M.
    destruct (loadPyodideOnce (loader s)) as [w1 r]. cbn [fst snd] in M.
    pose proof (await_load_memo first w1 r) as M'. rewrite M in M'.
    assert (A : await_load w1 r (first ++ second) =
                await_load (await_load w1 r first) r second)
      by (unfold await_load; apply fold_left_app).
    rewrite A. clear A.
    set (w2 := await_load w1 r first) in *.
    assert (L : loadPyodideOnce w2 = (w2, r))
      by (unfold loadPyodideOnce; rewrite M'; reflexivity).
    destruct (promises w2 !! r) as [[st|py|e]|] eqn:E; cbn [fst];
      unfold ensureReady; cbn [pyRef loader]; rewrite ?L.
    + reflexivity.
    + rewrite (await_load_fulfilled second _ _ _ E), E. reflexivity.
    + rewrite (await_load_rejected second _ _ _ E), E. reflexivity.
    + reflexivity.
Qed.

Lemma run_leaves_status
      (replies : list reply) (rt : runtime) (code : jsstring) (s : state) :
  status (fst (run replies rt code s)) <> st_idle
  /\ (forall e, snd (run replies rt code s) = Throws e ->
        status (fst (run replies rt code s)) = st_error
        /\ errMsg (fst (run replies rt code s)) = message_of e).
Proof.
  unfold run, ensureReady.
  destruct (pyRef s) as [py|].
  - destruct (rt py (program code)); cbn; split; try discriminate;
      intros e' H; discriminate H.
  - destruct (loadPyodideOnce (loader s)) as [w1 r].
    destruct (promises (await_load w1 r replies) !! r) as [[st|py|e]|];
      [|destruct (rt py (program code))| |]; cbn; split; try discriminate;
      intros e' H; try discriminate H.
    injection H as ->. split; reflexivity.
Qed.

(** X8.  What the hook shows agrees with what [run] gave.  After a call of
    [run], [status] is never idle; when [run] has returned a result without
    [error], [status] is ready and [errMsg] is empty; when it has returned
    a result with an [error], [status] is error, [errMsg] is that same
    message and the result has neither text nor image; when it has thrown,
    [status] is error and [errMsg] is the message of what was thrown; when
    it has not come back, [status] is loading or running. *)
Theorem status_agrees_with_result
        (replies : list reply) (rt : runtime) (code : jsstring) (s : state) :
  status (fst (run replies rt code s)) <> st_idle
  /\ match snd (run replies rt code s) with
     | Returns r =>
         match error r with
         | None =>
             status (fst (run replies rt code s)) = st_ready
             /\ errMsg (fst (run replies rt code s)) = []
         | Some m =>
             status (fst (run replies rt code s)) = st_error
             /\ errMsg (fst (run replies rt code s)) = m
             /\ images r = [] /\ text r = []
         end
     | Throws e =>
         status (fst (run replies rt code s)) = st_error
         /\ errMsg (fst (run replies rt code s)) = message_of e
     | Suspended =>
         status (fst (run replies rt code s)) = st_loading
         \/ status (fst (run replies rt code s)) = st_running
     end.
Proof.
  unfold run, ensureReady.
  destruct (pyRef s) as [py|].
  - destruct (rt py (program code)); cbn; repeat split; finish.
  - destruct (loadPyodideOnce (loader s)) as [w1 r].
    destruct (promises (await_load w1 r replies) !! r) as [[st|py|e]|];
      [|destruct (rt py (program code))| |]; cbn; repeat split; finish.
Qed.

End RunnerLaws.

(* ===================================================================== *)
(** ** Laws of the loader *)
(* ===================================================================== *)

Module LoaderLaws.
Import Js Loader Provenance.

Lemma justified_more (r : nat) (pr : promise) (seen more : list action) :
  justified r pr seen -> justified r pr (seen ++ more).
Proof.
  unfold justified.
  destruct pr as [[| |py|py|py]|py|e]; rewrite ?in_app_iff; try tauto.
  intros (B & P & e & M). repeat split; auto. exists e.
  rewrite in_app_iff. auto.
Qed.

Lemma justified_call (w : world) (seen : list action) :
  all_justified w seen ->
  all_justified (fst (loadPyodideOnce w)) (seen ++ [Call]).
Proof.
  intros J r pr. unfold loadPyodideOnce.
  destruct (_pyodidePromise w);
    [intros H; apply justified_more, (J r pr H)|].
  unfold start_init, call_loadPyodide.
  destruct (loadPyodide_defined w); cbn [fst promises negb];
    intros H; apply lookup_app_Some in H as [H|[_ H]];
    try (apply justified_more, (J r pr H));
    apply list_lookup_singleton_Some in H as [_ <-]; exact I.
Qed.

Lemma justified_resume (w : world) (r : nat) (st : stage) (rep : reply)
      (seen : list action) :
  justified r (Pending st) seen ->
  justified r (snd (resume w st rep)) (seen ++ [Deliver r rep]).
Proof.
  intros J.
  assert (L : In (Deliver r rep) (seen ++ [Deliver r rep]))
    by (apply in_app_iff; right; left; reflexivity).
  pose proof (justified_more r (Pending st) seen [Deliver r rep] J) as J'.
  destruct st, rep; try exact J'; cbn in J' |- *; try tauto; eauto 10;
    try (split; [apply J'|split; [apply J'|eauto]]).
  unfold call_loadPyodide, script_loaded. cbn.
  destruct (loadPyodide_defined w || defines_loadPyodide); cbn;
    [exact I|left; reflexivity].
Qed.

Lemma promises_resume (w : world) (st : stage) (rep : reply) :
  promises (fst (resume w st rep)) = promises w.
Proof.
  destruct st, rep; try reflexivity.
  unfold resume, call_loadPyodide, script_loaded. cbn.
  destruct (loadPyodide_defined w || defines_loadPyodide); reflexivity.
Qed.

Lemma justified_deliver (w : world) (r : nat) (rep : reply)
      (seen : list action) :
  all_justified w seen ->
  all_justified (deliver w r rep) (seen ++ [Deliver r rep]).
Proof.
  intros J r' pr'. unfold deliver.
  destruct (promises w !! r) as [[st|py|e]|] eqn:P;
    try (intros H; apply justified_more, (J r' pr' H)).
  pose proof (promises_resume w st rep) as PR.
  pose proof (justified_resume w r st rep seen (J r _ P)) as JR.
  destruct (resume w st rep) as [w' pr]. cbn [fst snd promises] in *.
  rewrite PR. intros H.
  destruct (decide (r = r')) as [<-|N].
  - rewrite list_lookup_insert_eq in H by (eapply lookup_lt_Some; exact P).
    injection H as <-. exact JR.
  - rewrite list_lookup_insert_ne in H by exact N.
    apply justified_more, (J r' pr' H).
Qed.

Lemma justified_run (acts : list action) (w : world) (seen : list action) :
  all_justified w seen ->
  all_justified (fst (run_actions w acts)) (seen ++ acts).
Proof.
  revert w seen. induction acts as [|a acts IH]; intros w seen J.
  - rewrite app_nil_r. exact J.
  - replace (seen ++ a :: acts) with ((seen ++ [a]) ++ acts)
      by (rewrite <- app_assoc; reflexivity).
    destruct a as [|r rep]; cbn [run_actions].
    + pose proof (justified_call w seen J) as J'.
      destruct (loadPyodideOnce w) as [w' r0]. cbn [fst] in J'.
      specialize (IH w' _ J').
      destruct (run_actions w' acts) as [w'' rs]. exact IH.
    + apply IH, justified_deliver, J.
Qed.

(** X9.  Where the outcome of the load comes from, whatever the events on
    the page.  When the load has succeeded, its runtime is the one
    [window.loadPyodide] resolved with, the packages were loaded, and
    seaborn was imported or installed by micropip.  When it has failed, it
    has failed with what the host delivered for the script, for the boot,
    for the packages or for the installation by micropip, or with the
    [TypeError] of a host without [window.loadPyodide]; a failed import of
    seaborn alone never makes the load fail. *)
Theorem load_outcome_is_justified (preloaded : bool) (acts : list action) :
  match promises (fst (run_actions (initial preloaded) acts)) !! 0 with
  | Some (Fulfilled py) =>
      In (Deliver 0 (BootResolved py)) acts
      /\ In (Deliver 0 PackagesLoaded) acts
      /\ (In (Deliver 0 SeabornImported) acts
          \/ In (Deliver 0 MicropipInstalled) acts)
  | Some (Rejected e) =>
      e = missing_loader
      \/ In (Deliver 0 (ScriptOnerror e)) acts
      \/ In (Deliver 0 (BootRejected e)) acts
      \/ In (Deliver 0 (PackagesFailed e)) acts
      \/ In (Deliver 0 (MicropipFailed e)) acts
  | _ => True
  end.
Proof.
  assert (J : all_justified (initial preloaded) []).
  { intros r pr H. cbn in H. rewrite lookup_nil in H. discriminate H. }
  pose proof (justified_run acts _ _ J 0) as K. cbn [app] in K.
  destruct (promises (fst (run_actions (initial preloaded) acts)) !! 0)
    as [[st|py|e]|]; try exact I; exact (K _ eq_refl).
Qed.

End LoaderLaws.

(* ===================================================================== *)
(** ** Laws of the clipboard writer *)
(* ===================================================================== *)

Module ClipboardLaws.
Import Js Clipboard ClipboardFacts Leak.

#[local] Arguments u16 : simpl never.

Lemma well_formed_snoc (b : list element) (e : element) (n : nat) :
  Forall (fun x => el_id x < n) b -> el_id e = n ->
  Forall (fun x => el_id x < S n) (b ++ [e]).
Proof.
  intros W E. apply Forall_app. split.
  - eapply well_formed_mono; [|exact W]. lia.
  - constructor; [lia|constructor].
Qed.

Lemma legacy_effect (h : host) (text : jsstring) (p : page) :
  well_formed p ->
  body (snd (legacy h text p)) =
    body p ++ (if legacy_leaves h
               then [{| el_id := next_id p; el_tag := TEXTAREA;
                        el_text := text |}]
               else [])
  /\ well_formed (snd (legacy h text p)).
Proof.
  unfold well_formed, legacy_leaves, legacy_quiet. intros WF.
  unfold legacy, execCommand_copy, try_catch, bind, host_call, ret, no_effect.
  cbn.
  destruct (throws h createTextarea); cbn;
    [rewrite app_nil_r; split; [reflexivity|exact WF]|].
  assert (WF' : Forall (fun e => el_id e < S (next_id p)) (body p))
    by (eapply well_formed_mono; [|exact WF]; lia).
  destruct (throws h appendTextarea); cbn;
    [rewrite app_nil_r; split; [reflexivity|exact WF']|].
  pose proof (filter_fresh_id (body p)
                {| el_id := next_id p; el_tag := TEXTAREA; el_text := text |} WF)
    as F. cbn in F.
  pose proof (well_formed_snoc (body p)
                {| el_id := next_id p; el_tag := TEXTAREA; el_text := text |}
                (next_id p) WF eq_refl) as WS.
  destruct (throws h selectTextarea); cbn; [split; [reflexivity|exact WS]|].
  destruct (throws h setSelectionRange); cbn; [split; [reflexivity|exact WS]|].
  destruct (has_execCommand h); cbn.
  - destruct (throws h execCommandTextarea); cbn;
      [split; [reflexivity|exact WS]|].
    destruct (throws h removeTextarea); cbn;
      [split; [reflexivity|exact WS]|].
    destruct (execCommand_returns h execCommandTextarea); cbn;
      rewrite F, app_nil_r; split; (reflexivity || exact WF').
  - destruct (throws h removeTextarea); cbn;
      [split; [reflexivity|exact WS]|].
    rewrite F, app_nil_r; split; (reflexivity || exact WF').
Qed.

Lemma manual_effect (h : host) (text : jsstring) (p : page) :
  well_formed p ->
  body (snd (manual h text p)) =
    body p ++ (if manual_leaves h
               then [{| el_id := next_id p; el_tag := SPAN; el_text := text |}]
               else []).
Proof.
  unfold well_formed, manual_leaves, manual_quiet. intros WF.
  unfold manual, execCommand_copy, try_catch, bind, host_call, ret, no_effect.
  cbn.
  destruct (throws h getSelection); cbn; [rewrite app_nil_r; reflexivity|].
  destruct (throws h createRange); cbn; [rewrite app_nil_r; reflexivity|].
  destruct (throws h createSpan); cbn; [rewrite app_nil_r; reflexivity|].
  destruct (throws h appendSpan); cbn; [rewrite app_nil_r; reflexivity|].
  pose proof (filter_fresh_id (body p)
                {| el_id := next_id p; el_tag := SPAN; el_text := text |} WF)
    as F. cbn in F.
  destruct (throws h selectNodeContents); cbn; [reflexivity|].
  destruct (throws h removeAllRanges1); cbn; [reflexivity|].
  destruct (throws h addRange); cbn; [reflexivity|].
  destruct (has_execCommand h); cbn.
  - destruct (throws h execCommandSelection); cbn; [reflexivity|].
    destruct (throws h removeAllRanges2); cbn; [reflexivity|].
    destruct (throws h removeSpan); cbn; [reflexivity|].
    destruct (execCommand_returns h execCommandSelection); cbn;
      rewrite F, app_nil_r; reflexivity.
  - destruct (throws h removeAllRanges2); cbn; [reflexivity|].
    destruct (throws h removeSpan); cbn; [reflexivity|].
    rewrite F, app_nil_r; reflexivity.
Qed.

(** X10.  What [safeCopyText] leaves in the page, for every host.  It
    never removes nor moves a child [document.body] had before the call.
    It leaves its textarea behind exactly when the legacy block was
    entered, the textarea was appended, and a call between [appendChild]
    and [removeChild] (the latter included) threw; it leaves its span
    behind exactly when the manual block was entered, the span was appended,
    and a call between its [appendChild] and [removeChild] threw.  Both
    carry the text to copy. *)
Theorem scaffolding_left_exactly
        (h : host) (text : jsstring) (p : page) :
  well_formed p ->
  take (length (body p)) (body (snd (safeCopyText h text p))) = body p
  /\ map (fun e => (el_tag e, el_text e))
         (drop (length (body p)) (body (snd (safeCopyText h text p)))) =
    (if negb (primary_succeeds h) && legacy_leaves h
     then [(TEXTAREA, text)] else [])
    ++ (if negb (primary_succeeds h) && negb (legacy_succeeds h)
           && manual_leaves h
        then [(SPAN, text)] else []).
Proof.
  intros WF.
  assert (E : exists leak,
             body (snd (safeCopyText h text p)) = body p ++ leak
             /\ map (fun e => (el_tag e, el_text e)) leak =
                (if negb (primary_succeeds h) && legacy_leaves h
                 then [(TEXTAREA, text)] else [])
                ++ (if negb (primary_succeeds h) && negb (legacy_succeeds h)
                       && manual_leaves h
                    then [(SPAN, text)] else [])).
  { unfold safeCopyText, bind.
    destruct (primary_body h text p) as [B1 N1].
    destruct (primary_run h text p) as [R1 _].
    destruct (primary h text p) as [r1 p1]. cbn [fst snd] in *. subst r1.
    destruct (primary_succeeds h); cbn [negb andb].
    - exists []. rewrite app_nil_r. split; [exact B1|reflexivity].
    - assert (WF1 : well_formed p1).
      { unfold well_formed in *. rewrite B1, N1. exact WF. }
      destruct (legacy_effect h text p1 WF1) as [B2 WF2].
      destruct (legacy_run h text p1) as [R2 _].
      destruct (legacy h text p1) as [r2 p2]. cbn [fst snd] in *. subst r2.
      destruct (legacy_succeeds h); cbn [negb andb].
      + eexists. unfold ret. cbn [snd]. rewrite B2, B1.
        split; [reflexivity|]. rewrite app_nil_r.
        destruct (legacy_leaves h); reflexivity.
      + pose proof (manual_effect h text p2 WF2) as B3.
        destruct (manual_run h text p2) as [R3 _].
        destruct (manual h text p2) as [r3 p3]. cbn [fst snd] in *. subst r3.
        eexists. split.
        * destruct (manual_succeeds h); unfold ret; cbn [snd];
            rewrite B3, B2, B1, <- app_assoc; reflexivity.
        * rewrite map_app.
          destruct (legacy_leaves h), (manual_leaves h); reflexivity. }
  destruct E as (leak & B & L). rewrite B.
  rewrite take_app_length, drop_app_length. split; [reflexivity|exact L].
Qed.

Lemma scaffolding_left_exactly_witness :
  map (fun e => (el_tag e, el_text e))
      (body (snd (safeCopyText throwing_host (u16 "x = 1") empty_page))) =
  [(TEXTAREA, u16 "x = 1"); (SPAN, u16 "x = 1")].
Proof.
  refine (proj2 (scaffolding_left_exactly throwing_host (u16 "x = 1")
                   empty_page _)).
  constructor.
Defined.

End ClipboardLaws.

(* ===================================================================== *)
(** ** Laws of the components *)
(* ===================================================================== *)

Module UiLaws.
Import Js Ui.

#[local] Arguments u16 : simpl never.

(** X11.  [handleCopy] for every host: the [catch] of line 258 is never
    entered, so [method] is never [null] after a click and [error] is
    either [null] (the copy succeeded by one of the three strategies) or
    the policy message (all of them failed); [busy] is false again at the
    end; nothing depends on what the button showed before.  While [ok] is
    set the caption names the method; once the timer has fired the caption
    is the label again and the error, if any, is still there. *)
Theorem handleCopy_outcome
        (h : Clipboard.host) (thrown : value) (text label : jsstring)
        (b : copy_button) (p : Clipboard.page) :
  let succeeded :=
    Clipboard.primary_succeeds h || Clipboard.legacy_succeeds h
    || Clipboard.manual_succeeds h in
  let b' := fst (handleCopy h thrown text b p) in
  b' = {| cb_ok := succeeded;
          cb_method := Some (Clipboard.method (Clipboard.expected_outcome h));
          cb_error := if succeeded then None
                      else Some (u16 "Clipboard blocked by policy");
          cb_busy := false |}
  /\ caption label b' =
     (if succeeded
      then u16 "Copied (" ++ Clipboard.method (Clipboard.expected_outcome h)
           ++ u16 ")"
      else label)
  /\ caption label (copy_timeout b') = label
  /\ cb_error (copy_timeout b') = cb_error b'.
Proof.
  intros succeeded b'. subst succeeded b'. unfold handleCopy.
  destruct (ClipboardFacts.safeCopyText_run h text p) as [R _].
  destruct (Clipboard.safeCopyText h text p) as [r p']. cbn [fst] in R.
  subst r. unfold Clipboard.expected_outcome.
  destruct (Clipboard.primary_succeeds h), (Clipboard.legacy_succeeds h),
    (Clipboard.manual_succeeds h); cbn; repeat split; reflexivity.
Qed.

(** X12.  The diagnostics never stay busy: although [run] of
    [ClipboardDiagnostics] has no [try] around [safeCopyText], for every
    host it ends with [busy] false and with the outcome of the copy as
    [result]. *)
Theorem diagnostics_never_stuck
        (h : Clipboard.host) (d : diagnostics) (p : Clipboard.page) :
  fst (diagnostics_run h d p) =
    {| dg_result := Some (Clipboard.expected_outcome h); dg_busy := false |}.
Proof.
  unfold diagnostics_run.
  destruct (ClipboardFacts.safeCopyText_run h sample p) as [R _].
  destruct (Clipboard.safeCopyText h sample p) as [r p']. cbn [fst] in R.
  subst r. reflexivity.
Qed.

(** X13.  How [onRun] ends.  The hook is left as [run] leaves it, and the
    Load runtime button is not displayed afterwards.  When [onRun] comes
    back, by a return or by an exception, [running] is false again.  It
    throws exactly what [ensureReady] throws; the block then keeps the
    output and [hasRun] it had, and the error box is displayed as soon as
    the message of the failure is not empty.  While it has not come back
    the Run button is disabled. *)
Theorem onRun_exits
        (replies : list Loader.reply) (rt : Runner.runtime) (code : jsstring)
        (s : Runner.state) (c : code_block) :
  let r := onRun replies rt code s c in
  fst (fst r) = fst (Runner.run replies rt code s)
  /\ load_button_shown (fst (fst r)) = false
  /\ match snd r with
     | Runner.Returns _ =>
         Runner.run replies rt code s
           = (fst (fst r), Runner.Returns (out (snd (fst r))))
         /\ cb_running (snd (fst r)) = false
         /\ hasRun (snd (fst r)) = true
     | Runner.Throws e =>
         snd (Runner.ensureReady replies s) = Runner.Throws e
         /\ snd (fst r) =
            {| out := out c; cb_running := false; hasRun := hasRun c |}
         /\ error_shown (fst (fst r)) = truthy_length (length (message_of e))
     | Runner.Suspended =>
         snd (Runner.run replies rt code s) = Runner.Suspended
         /\ out (snd (fst r)) = out c
         /\ run_disabled (fst (fst r)) (snd (fst r)) = true
     end.
Proof.
  intros r. subst r. unfold onRun.
  pose proof (RunnerLaws.run_leaves_status replies rt code s) as [I T].
  pose proof (RunnerFacts.run_unfold replies rt code s) as U.
  destruct (Runner.run replies rt code s) as [s' [res|e|]];
    cbn [fst snd] in *.
  - split; [reflexivity|]. split; [|repeat split].
    unfold load_button_shown. destruct (Runner.status s'); congruence.
  - split; [reflexivity|]. split;
      [unfold load_button_shown; destruct (Runner.status s'); congruence|].
    destruct (T e eq_refl) as [T1 T2]. split; [|split; [reflexivity|]].
    + destruct (snd (Runner.ensureReady replies s)) as [py|e'|];
        [destruct (rt py (Runner.program code))| |]; congruence.
    + unfold error_shown. rewrite T1, T2. reflexivity.
  - split; [reflexivity|]. split;
      [unfold load_button_shown; destruct (Runner.status s'); congruence|].
    repeat split.
Qed.

Lemma join_app (sep : jsstring) (A B : list jsstring) :
  A <> [] -> B <> [] ->
  join sep (A ++ B) = join sep A ++ sep ++ join sep B.
Proof.
  intros HA HB. induction A as [|x A IH]; [contradiction|].
  destruct A as [|y A].
  - cbn [app join]. destruct B; [contradiction|reflexivity].
  - change (join sep ((x :: y :: A) ++ B))
      with (x ++ sep ++ join sep ((y :: A) ++ B)).
    rewrite IH by discriminate.
    change (join sep (x :: y :: A)) with (x ++ sep ++ join sep (y :: A)).
    rewrite <- !app_assoc. reflexivity.
Qed.

Lemma join_nil (sep : jsstring) (A : list jsstring) :
  Forall (fun t => t <> []) A -> join sep A = [] -> A = [].
Proof.
  destruct 1 as [|x A Hx _]; [reflexivity|]. cbn [join].
  destruct A; intros E; [contradiction|].
  apply app_eq_nil in E as [E _]. contradiction.
Qed.

Lemma kept_classes_nonempty (xs : list class_arg) :
  Forall (fun t => t <> []) (map join_text (List.filter Boolean xs)).
Proof.
  induction xs as [|x xs IH]; cbn; [constructor|].
  destruct (Boolean x) eqn:B; [|exact IH]. constructor; [|exact IH].
  destruct x as [[|]| | |t]; try discriminate B.
  - vm_compute. discriminate.
  - cbn in B |- *. destruct t; [discriminate B|discriminate].
Qed.

Lemma Boolean_CString (t : jsstring) :
  Boolean (CString t) = match t with [] => false | _ :: _ => true end.
Proof. destruct t; reflexivity. Qed.

Lemma join_two (sep : jsstring) (A B : list jsstring) :
  Forall (fun t => t <> []) A -> Forall (fun t => t <> []) B ->
  join sep (A ++ B) =
  join sep (map join_text
              (List.filter Boolean
                 [CString (join sep A); CString (join sep B)])).
Proof.
  intros NA NB. cbn [List.filter]. rewrite !Boolean_CString.
  destruct (join sep A) as [|a ja] eqn:JA.
  - apply join_nil in JA; [|exact NA]. subst A. cbn [app].
    destruct (join sep B) as [|b jb] eqn:JB; reflexivity.
  - destruct (join sep B) as [|b jb] eqn:JB.
    + apply join_nil in JB; [|exact NB]. subst B.
      rewrite app_nil_r, JA. reflexivity.
    + destruct A as [|x A]; [discriminate JA|].
      destruct B as [|y B]; [discriminate JB|].
      rewrite join_app, JA, JB by discriminate. reflexivity.
Qed.

(** X14.  [classNames] can be nested: the classes of two lists of
    arguments put together are those of the two results, whatever is
    falsy or empty among them; no space is added for an empty result.  The
    result is empty exactly when no argument is truthy. *)
Theorem classNames_nests (xs ys : list class_arg) :
  classNames (xs ++ ys) =
    classNames [CString (classNames xs); CString (classNames ys)]
  /\ truthy_length (length (classNames xs)) = existsb Boolean xs.
Proof.
  unfold classNames.
  pose proof (kept_classes_nonempty xs) as NX.
  pose proof (kept_classes_nonempty ys) as NY.
  split.
  - rewrite List.filter_app, map_app. apply join_two; assumption.
  - rewrite ParserLaws.existsb_filter.
    destruct (List.filter Boolean xs) as [|x A] eqn:E; [reflexivity|].
    destruct (join (u16 " ") (map join_text (x :: A))) eqn:J;
      [apply join_nil in J; [discriminate J|exact NX]|reflexivity].
Qed.








Lemma two_digits_checked :
  forallb (fun k => bool_decide
                      (padStart 2 (toString (Z.of_nat k)) =
                       two_digits (Z.of_nat k)))
          (seq 0 100) = true.
Proof. vm_compute. reflexivity. Qed.

Lemma padStart_two_digits (n : Z) :
  (0 <= n < 100)%Z -> padStart 2 (toString n) = two_digits n.
Proof.
  intros B. pose proof two_digits_checked as C.
  rewrite forallb_forall in C.
  assert (I : In (Z.to_nat n) (seq 0 100)) by (apply in_seq; lia).
  specialize (C (Z.to_nat n) I). rewrite Z2Nat.id in C by lia.
  apply bool_decide_eq_true in C. exact C.
Qed.

(** X16.  While less than one hundred minutes are left the countdown is
    displayed as two digits for the minutes, a colon, and two digits for
    the seconds, zero padded: from 80:00 down to 00:00 for the lecture. *)
Theorem display_is_mm_ss (c : countdown) :
  (0 <= secsLeft c < 6000)%Z ->
  display c =
    two_digits (secsLeft c / 60) ++ u16 ":" ++ two_digits (secsLeft c mod 60)
  /\ length (display c) = 5.
Proof.
  intros B. unfold display, mm, ss.
  rewrite Z.rem_mod_nonneg by lia.
  pose proof (Z.mod_pos_bound (secsLeft c) 60 ltac:(lia)) as BM.
  assert (BD : (0 <= secsLeft c / 60 < 100)%Z)
    by (split; [apply Z.div_pos; lia|apply Z.div_lt_upper_bound; lia]).
  rewrite !padStart_two_digits by lia. split; reflexivity.
Qed.

Lemma display_is_mm_ss_witness :
  display (timer_run 80 [StartPause; Interval; Interval]) = u16 "79:58".
Proof.
  refine (proj1 (display_is_mm_ss
                   (timer_run 80 [StartPause; Interval; Interval]) _)).
  vm_compute. split; [discriminate|reflexivity].
Defined.

Lemma quiz_fold (evs : list quiz_event) (s : quiz_state) (idx : nat) :
  answers (fold_left quiz_step evs s) !! idx =
    last_choice evs idx (answers s !! idx)
  /\ submitted (fold_left quiz_step evs s) =
    submitted_after evs (submitted s).
Proof.
  revert s. induction evs as [|ev evs IH]; intros s; [split; reflexivity|].
  cbn [fold_left]. destruct (IH (quiz_step s ev)) as [IA IS].
  rewrite IA, IS. destruct ev as [i c| |]; cbn; split; try reflexivity.
  destruct (Nat.eqb_spec i idx) as [->|N].
  - rewrite lookup_insert_eq. reflexivity.
  - rewrite lookup_insert_ne by exact N. reflexivity.
Qed.

(** X17.  The quiz grades the last choice.  What is shown under a
    question depends on two things only: whether Submit has been clicked
    since the last Reset, and which choice was made last for that question
    since the last Reset (choices made after Submit count, choices for
    other questions do not).  Before Submit nothing is shown; after it, the
    right choice is told correct, another choice is told incorrect with
    the explanation, and a question without a choice shows the explanation
    alone.  A question is never both correct and wrong. *)
Theorem quiz_feedback (evs : list quiz_event) (idx : nat) (item : quiz_item) :
  feedback (quiz_run evs) idx item =
    (if submitted_after evs false then
       Some (match last_choice evs idx None with
             | Some c =>
                 if Nat.eqb c (a item) then [0x2705%N] ++ u16 " Correct."
                 else [0x274C%N] ++ u16 " Incorrect. " ++ explain item
             | None => explain item
             end)
     else None)
  /\ correct (quiz_run evs) idx item && wrong (quiz_run evs) idx item = false.
Proof.
  unfold quiz_run, feedback, correct, wrong, selected_is, selected_defined.
  destruct (quiz_fold evs quiz_initial idx) as [A S].
  rewrite S, A. cbn [quiz_initial answers submitted].
  rewrite lookup_empty.
  destruct (submitted_after evs false); [|split; reflexivity].
  destruct (last_choice evs idx None) as [c|].
  - destruct (Nat.eqb_spec c (a item)) as [->|N].
    + rewrite !bool_decide_eq_true_2 by eauto. split; reflexivity.
    + rewrite (bool_decide_eq_false_2 (Some c = Some (a item)))
        by congruence.
      rewrite bool_decide_eq_true_2 by eauto. split; reflexivity.
  - rewrite (bool_decide_eq_false_2 (None = Some (a item))) by congruence.
    rewrite (bool_decide_eq_false_2 (is_Some None))
      by (intros [x Hx]; discriminate Hx).
    split; reflexivity.
Qed.

End UiLaws.
